(** * MoodSync: weekly mood statistics and insight scoring

    A shallow embedding of the computational part of
    [app/components/insights/MoodInsights.tsx] (weekly statistics, dominant
    mood, wellness score, recommendation text, week boundaries, insight
    creation) together with the [MoodInsight] model declared in
    [amplify/data/resource.ts].

    Conventions of the embedding:
    - a JavaScript number is an exact rational ([Q]) where the code divides,
      and an integer ([Z]) where the code only counts or adds integers;
      comparisons against integer literals are exact on both;
    - a JavaScript object used as a record ([Record<string, number>]) is an
      association list in property-insertion order, which is the order
      [Object.entries] and [Object.keys] enumerate non-numeric keys in;
    - a thrown exception is the [Throw] case of [completion];
    - React state is an explicit record threaded through the handlers. *)

From Stdlib Require Import ZArith QArith Qround Lia Lqa List.
From Stdlib Require Import Ascii String DecimalString.
From stdpp Require Import base gmap strings list sorting.

Local Open Scope Z_scope.

(** ** The fragment of the JavaScript runtime the component relies on *)

Module JS.

Inductive error : Type :=
| TypeError (msg : string).

Inductive completion (A : Type) : Type :=
| Normal (a : A)
| Throw (e : error).
Arguments Normal {A} a.
Arguments Throw {A} e.

Definition bind {A B} (c : completion A) (k : A -> completion B)
  : completion B :=
  match c with
  | Normal a => k a
  | Throw e => Throw e
  end.

Definition is_normal {A} (c : completion A) : bool :=
  match c with Normal _ => true | Throw _ => false end.

(** [Math.round]: nearest integer, halves towards plus infinity. *)
Definition Math_round (x : Q) : Z := Qfloor (x + (1 # 2))%Q.

Definition Math_max (a b : Z) : Z := Z.max a b.
Definition Math_min (a b : Z) : Z := Z.min a b.

(** Objects with string keys: property list in insertion order. *)
Definition object (V : Type) : Type := list (string * V).

Fixpoint get {V} (o : object V) (k : string) : option V :=
  match o with
  | [] => None
  | (k', v) :: rest => if String.eqb k k' then Some v else get rest k
  end.

(** [o[k] = v]: overwrite in place, or append a new property. *)
Fixpoint set {V} (o : object V) (k : string) (v : V) : object V :=
  match o with
  | [] => [(k, v)]
  | (k', v') :: rest =>
      if String.eqb k k' then (k', v) :: rest else (k', v') :: set rest k v
  end.

Definition Object_entries {V} (o : object V) : list (string * V) := o.
Definition Object_keys {V} (o : object V) : list string := map fst o.

(** [xs.reduce(f)] with no initial value: the first element seeds the
    accumulator, and an empty array raises a [TypeError]. *)
Definition reduce1 {A} (f : A -> A -> A) (xs : list A) : completion A :=
  match xs with
  | [] => Throw (TypeError "Reduce of empty array with no initial value")
  | x :: rest => Normal (fold_left f rest x)
  end.

(** [xs.join(sep)] on an array of strings. *)
Fixpoint join (sep : string) (xs : list string) : string :=
  match xs with
  | [] => EmptyString
  | [x] => x
  | x :: rest => (x ++ sep ++ join sep rest)%string
  end.

(** Decimal rendering of an integer, as a template literal prints it. *)
Definition int_toString (n : Z) : string :=
  NilZero.string_of_int (Z.to_int n).

(** Decimal rendering of a number with at most one fractional digit (which
    covers every value of the form [Math.round(x * 10) / 10]); a number
    with more digits is rendered at its nearest tenth. *)
Definition number_toString (x : Q) : string :=
  let t := Math_round (x * 10)%Q in
  let sign := if t <? 0 then "-"%string else EmptyString in
  let a := Z.abs t in
  let whole := int_toString (a / 10) in
  let frac := a mod 10 in
  if frac =? 0 then (sign ++ whole)%string
  else (sign ++ whole ++ "." ++ int_toString frac)%string.

End JS.

#[global] Instance completion_ret : MRet JS.completion := @JS.Normal.
#[global] Instance completion_bind : MBind JS.completion :=
  fun A B k c => JS.bind c k.

(** ** Data model *)

(** [MOOD_TYPES] of [MoodSelector.tsx], in declaration order; the same five
    names are the [moodType] enum of the [Mood] model. *)
Inductive MoodType : Type := HAPPY | SAD | ENERGETIC | CALM | ANXIOUS.

Definition moodKey (m : MoodType) : string :=
  match m with
  | HAPPY => "HAPPY"
  | SAD => "SAD"
  | ENERGETIC => "ENERGETIC"
  | CALM => "CALM"
  | ANXIOUS => "ANXIOUS"
  end.

Definition moodLabel (m : MoodType) : string :=
  match m with
  | HAPPY => "Happy"
  | SAD => "Sad"
  | ENERGETIC => "Energetic"
  | CALM => "Calm"
  | ANXIOUS => "Anxious"
  end.

Definition allMoodTypes : list MoodType := [HAPPY; SAD; ENERGETIC; CALM; ANXIOUS].

(** [MOOD_TYPES] as the object it is: key to label (colour and emoji are
    not used by the computations below). *)
Definition MOOD_TYPES : JS.object string :=
  map (fun m => (moodKey m, moodLabel m)) allMoodTypes.

(** The fields of a [Mood] row that the statistics read. *)
Record Mood : Type := mkMood {
  mood_userId : string;
  moodType : MoodType;
  intensity : Z;
  date : string
}.

Record WeeklyStats : Type := mkStats {
  totalMoods : Z;
  averageIntensity : Q;
  moodDistribution : JS.object Z;
  moodStreak : Z
}.

(** ** Weekly statistics *)

(** [moods.reduce((sum, mood) => sum + mood.intensity, 0)] *)
Definition sumIntensity (moods : list Mood) : Z :=
  fold_left (fun sum mood => sum + intensity mood) moods 0.

(** [acc[k] = (acc[k] || 0) + 1]; a count of [0] is falsy, like a missing
    property. *)
Definition countMood (acc : JS.object Z) (mood : Mood) : JS.object Z :=
  let k := moodKey (moodType mood) in
  let old := match JS.get acc k with
             | Some c => if c =? 0 then 0 else c
             | None => 0
             end in
  JS.set acc k (old + 1).

Definition distributionOf (moods : list Mood) : JS.object Z :=
  fold_left countMood moods [].

(** [new Set(moods.map(mood => mood.date))] *)
Definition uniqueDays (moods : list Mood) : gset string :=
  list_to_set (map date moods).

(** [calculateMoodStreak]: [uniqueDays.size] *)
Definition calculateMoodStreak (moods : list Mood) : Z :=
  Z.of_nat (size (uniqueDays moods)).

(** The body of [generateWeeklyStats] once the query has answered:
    [moods] is [result.data], the rows the store returned for the user and
    the week. *)
Definition generateWeeklyStats (moods : list Mood) : WeeklyStats :=
  let total := Z.of_nat (length moods) in
  let average :=
    if 0 <? total
    then (inject_Z (sumIntensity moods) / inject_Z total)%Q
    else 0%Q in
  let distribution := distributionOf moods in
  let streak := calculateMoodStreak moods in
  {| totalMoods := total;
     averageIntensity := (inject_Z (JS.Math_round (average * 10)) / 10)%Q;
     moodDistribution := distribution;
     moodStreak := streak |}.

(** ** Dates

    A [Date] object holds milliseconds since the epoch in UTC; its [getDay],
    [getDate], [setDate] and [setHours] work on local time.  The local zone
    is a fixed offset [tz], in minutes ahead of UTC (daylight-saving
    transitions are outside the model). *)

Module Date.

Definition msPerDay : Z := 86400000.

Definition localMs (tz t : Z) : Z := t + tz * 60000.

(** Local calendar day, counted from 1970-01-01 (day 0, a Thursday). *)
Definition localDay (tz t : Z) : Z := localMs tz t / msPerDay.

(** [getDay()]: 0 is Sunday, 1 is Monday, ..., 6 is Saturday. *)
Definition getDay (tz t : Z) : Z := (localDay tz t + 4) mod 7.

(** [d.setDate(d.getDate() + k)]: the same local time of day, [k] days
    later ([setDate] normalises a day of month outside the month). *)
Definition addDays (t k : Z) : Z := t + k * msPerDay.

(** [d.setHours(0, 0, 0, 0)]: local midnight of the same local day. *)
Definition setHours0 (tz t : Z) : Z := t - localMs tz t mod msPerDay.

Definition pad (width : nat) (n : Z) : string :=
  let digits := JS.int_toString n in
  (String.concat EmptyString (repeat "0" (width - String.length digits)) ++ digits)%string.

(** Proleptic Gregorian date of a day number, as [YYYY-MM-DD] (years 0000
    to 9999). *)
Definition isoDate (day : Z) : string :=
  let z := day + 719468 in
  let era := z / 146097 in
  let doe := z - era * 146097 in
  let yoe := (doe - doe / 1460 + doe / 36524 - doe / 146096) / 365 in
  let doy := doe - (365 * yoe + yoe / 4 - yoe / 100) in
  let mp := (5 * doy + 2) / 153 in
  let d := doy - (153 * mp + 2) / 5 + 1 in
  let m := if mp <? 10 then mp + 3 else mp - 9 in
  let y := yoe + era * 400 + (if m <=? 2 then 1 else 0) in
  (pad 4 y ++ "-" ++ pad 2 m ++ "-" ++ pad 2 d)%string.

(** [d.toISOString().split('T')[0]]: the calendar date in UTC. *)
Definition toISODate (t : Z) : string := isoDate (t / msPerDay).

(** The Monday of the ISO week (Monday to Sunday) containing a day. *)
Definition isoMonday (day : Z) : Z := day - (day + 3) mod 7.

End Date.

(** [getCurrentWeekStart], with the clock reading [now] and the zone made
    explicit. *)
Definition getCurrentWeekStart (tz now : Z) : Z :=
  let monday := now in
  let monday := Date.addDays monday (- Date.getDay tz now + 1) in
  let monday := Date.setHours0 tz monday in
  monday.

(** [const weekEnd = new Date(currentWeek); weekEnd.setDate(weekEnd.getDate() + 6)] *)
Definition weekEndOf (currentWeek : Z) : Z := Date.addDays currentWeek 6.

(** ** Dominant mood *)

(** The reducer [(a, b) => a[1] > b[1] ? a : b] *)
Definition largerEntry (a b : string * Z) : string * Z :=
  if a.2 >? b.2 then a else b.

(** [Object.entries(dist).reduce((a, b) => a[1] > b[1] ? a : b)] *)
Definition dominantMoodEntry (dist : JS.object Z) : JS.completion (string * Z) :=
  JS.reduce1 largerEntry (JS.Object_entries dist).

Definition dominantMoodOf (dist : JS.object Z) : JS.completion string :=
  entry ← dominantMoodEntry dist; mret entry.1.

(** ** Insight and recommendation text *)

Definition lowerChar (c : ascii) : ascii :=
  let n := nat_of_ascii c in
  if ((65 <=? n) && (n <=? 90))%nat then ascii_of_nat (n + 32) else c.

(** [s.toLowerCase()] on ASCII text. *)
Fixpoint toLowerCase (s : string) : string :=
  match s with
  | EmptyString => EmptyString
  | String c rest => String (lowerChar c) (toLowerCase rest)
  end.

(** [Math.round((count / total) * 100)] inside a template literal; a
    missing count is [undefined] and prints as [NaN], a zero total divides
    by zero.  The quotient is exact here; where the exact percentage ends in
    one half, the code's doubles can fall just below it and print one less. *)
Definition percentText (count : option Z) (total : Z) : string :=
  match count with
  | None => "NaN"
  | Some c =>
      if total =? 0
      then (if c =? 0 then "NaN" else if 0 <? c then "Infinity" else "-Infinity")
      else JS.int_toString (JS.Math_round ((inject_Z c / inject_Z total) * 100)%Q)
  end.

Definition generateMockAIInsights (stats : option WeeklyStats) (dominantMood : string)
  : JS.completion string :=
  match stats with
  | None => JS.Normal EmptyString
  | Some stats =>
      match JS.get MOOD_TYPES dominantMood with
      | None => JS.Throw (JS.TypeError "Cannot read properties of undefined (reading 'label')")
      | Some label =>
          let moodLabel := toLowerCase label in
          let insights :=
            [ ("This week, you've been predominantly " ++ moodLabel
               ++ ", which appeared in "
               ++ percentText (JS.get (moodDistribution stats) dominantMood) (totalMoods stats)
               ++ "% of your mood entries.")%string;
              ("Your average mood intensity was "
               ++ JS.number_toString (averageIntensity stats) ++ "/10, indicating "
               ++ (if Qle_bool 7 (averageIntensity stats) then "strong"
                   else if Qle_bool 5 (averageIntensity stats) then "moderate"
                   else "mild")
               ++ " emotional experiences.")%string;
              ("You maintained a " ++ JS.int_toString (moodStreak stats)
               ++ "-day mood tracking streak this week, showing good consistency in self-awareness.")%string ] in
          let insights :=
            if (3 <? length (JS.Object_keys (moodDistribution stats)))%nat
            then insights ++ ["Your mood variety suggests you experienced a full range of emotions, which is healthy and normal."%string]
            else insights ++ ["Your moods were relatively stable this week, with fewer emotional fluctuations."%string] in
          JS.Normal (JS.join " " insights)
      end
  end.

Definition calmingAdvice : string :=
  "Consider practicing deep breathing exercises or meditation to help manage anxiety levels.".
Definition supportAdvice : string :=
  "Try engaging in activities that bring you joy, or reach out to friends and family for support.".
Definition sharingAdvice : string :=
  "Great job maintaining positive energy! Consider sharing your happiness with others.".
Definition energyAdvice : string :=
  "Channel your energy into productive activities or creative pursuits.".
Definition reflectionAdvice : string :=
  "Your calm state is wonderful for reflection and planning. Use this time for goal setting.".
Definition consistencyReminder : string :=
  "Try to track your mood daily for better insights into your emotional patterns.".
Definition genericEncouragement : string :=
  "Keep up the great work with mood tracking! Consistency helps build emotional awareness.".

(** [s || fallback]: the empty string is falsy. *)
Definition orElse (s fallback : string) : string :=
  match s with
  | EmptyString => fallback
  | _ => s
  end.

Definition generateMockRecommendations (stats : option WeeklyStats) (dominantMood : string)
  : string :=
  match stats with
  | None => EmptyString
  | Some stats =>
      let recommendations := [] in
      let recommendations :=
        if String.eqb dominantMood "ANXIOUS" && negb (Qle_bool (averageIntensity stats) 6)
        then recommendations ++ [calmingAdvice]
        else if String.eqb dominantMood "SAD" && negb (Qle_bool (averageIntensity stats) 5)
        then recommendations ++ [supportAdvice]
        else if String.eqb dominantMood "HAPPY" && negb (Qle_bool (averageIntensity stats) 7)
        then recommendations ++ [sharingAdvice]
        else if String.eqb dominantMood "ENERGETIC"
        then recommendations ++ [energyAdvice]
        else if String.eqb dominantMood "CALM"
        then recommendations ++ [reflectionAdvice]
        else recommendations in
      let recommendations :=
        if moodStreak stats <? 3
        then recommendations ++ [consistencyReminder]
        else recommendations in
      orElse (JS.join " " recommendations) genericEncouragement
  end.

Definition getOverallTrend (stats : option WeeklyStats) : string :=
  match stats with
  | None => "neutral"
  | Some stats =>
      if Qle_bool 7 (averageIntensity stats) then "positive"
      else if Qle_bool (averageIntensity stats) 4 then "challenging"
      else "stable"
  end.

(** ** Weekly score *)

Definition calculateWeeklyScore (stats : option WeeklyStats) : Z :=
  match stats with
  | None => 5
  | Some stats =>
      let score := 5 in
      let score :=
        if Qle_bool 7 (averageIntensity stats) then score + 2
        else if Qle_bool 5 (averageIntensity stats) then score + 1
        else if Qle_bool (averageIntensity stats) 3 then score - 2
        else score in
      let moodDiversity := Z.of_nat (length (JS.Object_keys (moodDistribution stats))) in
      let score := if 4 <=? moodDiversity then score + 1 else score in
      let score := if moodDiversity <=? 2 then score - 1 else score in
      let score :=
        if 6 <=? moodStreak stats then score + 1
        else if moodStreak stats <=? 2 then score - 1
        else score in
      JS.Math_max 1 (JS.Math_min 10 score)
  end.

(** ** The insight record and its store *)

(** The [MoodInsight] model of [amplify/data/resource.ts]; its identifier is
    the pair of [userId] and [weekStartDate]. *)
Record MoodInsightData : Type := mkInsight {
  userId : string;
  weekStartDate : string;
  weekEndDate : string;
  overallMoodTrend : string;
  dominantMood : string;
  moodVariability : Q;
  insights : string;
  recommendations : string;
  moodFrequency : string;
  weeklyScore : Z
}.

Definition quote : string := String (ascii_of_nat 34) EmptyString.

(** [JSON.stringify] of a string-to-count object whose keys need no
    escaping. *)
Definition JSON_stringify (o : JS.object Z) : string :=
  ("{" ++ JS.join "," (map (fun kv => quote ++ kv.1 ++ quote ++ ":" ++ JS.int_toString kv.2) o)
   ++ "}")%string.

Module InsightStore.

Definition key : Type := (string * string)%type.

Definition keyOf (r : MoodInsightData) : key := (userId r, weekStartDate r).

Definition key_eqb (a b : key) : bool := String.eqb a.1 b.1 && String.eqb a.2 b.2.

(** The table: its rows, oldest first. *)
Definition t : Type := list MoodInsightData.

Definition has_key (db : t) (k : key) : bool :=
  existsb (fun r => key_eqb (keyOf r) k) db.

Inductive failure : Type := DuplicateKey.

(** What [client.models.MoodInsight.create] resolves to: the stored row, or
    no data and the reason. *)
Record response : Type := mkResponse {
  data : option MoodInsightData;
  errors : list failure
}.

(** Modelled from the spec: the create operation of the managed data
    service, whose implementation is not part of the repository (only the
    [identifier(userId, weekStartDate)] declaration of the model is).  It
    inserts the row if no row has the same identifier, and otherwise
    rejects it with a duplicate-key failure and changes nothing. *)
Definition createInsight (db : t) (r : MoodInsightData) : t * response :=
  if has_key db (keyOf r)
  then (db, mkResponse None [DuplicateKey])
  else (db ++ [r], mkResponse (Some r) []).

(** The states the table can be in: empty, then any sequence of creates. *)
Inductive reachable : t -> Prop :=
| reachable_empty : reachable []
| reachable_create db r : reachable db -> reachable (createInsight db r).1.

(** Rows stored under an identifier. *)
Definition rowsFor (db : list MoodInsightData) (k : key) : list MoodInsightData :=
  filter (fun r => key_eqb (keyOf r) k = true) db.

End InsightStore.

(** ** The component and its insight generation *)

Record Component : Type := mkComponent {
  weeklyStats : option WeeklyStats;
  currentUserId : string;
  insightList : list MoodInsightData;
  currentWeekInsight : option MoodInsightData;
  isGenerating : bool;
  alerts : list string
}.

Definition alert (msg : string) (c : Component) : Component :=
  mkComponent (weeklyStats c) (currentUserId c) (insightList c)
    (currentWeekInsight c) (isGenerating c) (alerts c ++ [msg]).

Definition setIsGenerating (b : bool) (c : Component) : Component :=
  mkComponent (weeklyStats c) (currentUserId c) (insightList c)
    (currentWeekInsight c) b (alerts c).

(** [setCurrentWeekInsight(row); setInsights(prev => [row, ...prev])] *)
Definition showInsight (row : MoodInsightData) (c : Component) : Component :=
  mkComponent (weeklyStats c) (currentUserId c) (row :: insightList c)
    (Some row) (isGenerating c) (alerts c).

(** The record [generateAIInsight] submits, inside its [try] block. *)
Definition buildInsight (tz now : Z) (uid : string) (stats : WeeklyStats)
  : JS.completion MoodInsightData :=
  let currentWeek := getCurrentWeekStart tz now in
  let weekEnd := weekEndOf currentWeek in
  dominant ← dominantMoodOf (moodDistribution stats);
  let moodTypes := length (JS.Object_keys (moodDistribution stats)) in
  let variability := (inject_Z (Z.of_nat moodTypes) / 5)%Q in
  text ← generateMockAIInsights (Some stats) dominant;
  let advice := generateMockRecommendations (Some stats) dominant in
  let score := calculateWeeklyScore (Some stats) in
  mret {| userId := uid;
          weekStartDate := Date.toISODate currentWeek;
          weekEndDate := Date.toISODate weekEnd;
          overallMoodTrend := getOverallTrend (Some stats);
          dominantMood := dominant;
          moodVariability := variability;
          insights := text;
          recommendations := advice;
          moodFrequency := JSON_stringify (moodDistribution stats);
          weeklyScore := score |}.

Definition notEnoughData : string :=
  "Not enough mood data this week to generate insights.".
Definition generationFailed : string :=
  "Failed to generate insights. Please try again.".

(** [generateAIInsight]: the guard, then the [try] / [catch] / [finally]
    around building the record and creating it in the store. *)
Definition generateAIInsight (tz now : Z) (c : Component) (db : InsightStore.t)
  : Component * InsightStore.t :=
  match weeklyStats c with
  | None => (alert notEnoughData c, db)
  | Some stats =>
      if totalMoods stats =? 0 then (alert notEnoughData c, db)
      else
        let c := setIsGenerating true c in
        match buildInsight tz now (currentUserId c) stats with
        | JS.Throw _ => (setIsGenerating false (alert generationFailed c), db)
        | JS.Normal newInsight =>
            let '(db', resp) := InsightStore.createInsight db newInsight in
            match InsightStore.data resp with
            | Some row => (setIsGenerating false (showInsight row c), db')
            | None => (setIsGenerating false c, db')
            end
        end
  end.

(** ** The specification's wording, for comparison with the code *)

Module Spec.

(** Dominant mood as the specification words it: the mood types are visited
    in declaration order and the first one holding the maximum count wins;
    no mood type is returned when none has been counted. *)
Definition countOf (dist : JS.object Z) (m : MoodType) : Z :=
  default 0 (JS.get dist (moodKey m)).

Definition classifyDominantMood (dist : JS.object Z) : option MoodType :=
  fold_left
    (fun best m =>
       match best with
       | None => if 0 <? countOf dist m then Some m else None
       | Some b => if countOf dist b <? countOf dist m then Some m else Some b
       end)
    allMoodTypes None.

(** An entry is well formed when its intensity is between 1 and 10 and its
    date reads [YYYY-MM-DD]. *)
Definition isDigit (c : ascii) : bool :=
  ((48 <=? nat_of_ascii c) && (nat_of_ascii c <=? 57))%nat.

Definition wellFormedDate (s : string) : bool :=
  match list_ascii_of_string s with
  | [y1; y2; y3; y4; d1; m1; m2; d2; a1; a2] =>
      forallb isDigit [y1; y2; y3; y4; m1; m2; a1; a2]
      && Ascii.eqb d1 "-" && Ascii.eqb d2 "-"
  | _ => false
  end.

Definition wellFormed (m : Mood) : bool :=
  (1 <=? intensity m) && (intensity m <=? 10) && wellFormedDate (date m).

(** One decimal place: the nearest multiple of a tenth, halves upwards. *)
Definition roundToOneDecimal (x : Q) : Q :=
  (inject_Z (Qfloor (x * 10 + (1 # 2))) / 10)%Q.

(** The wellness score as the specification words it: three independent
    adjustments added to the base, clamped once. *)
Definition intensityAdjustment (avg : Q) : Z :=
  if Qle_bool 7 avg then 2
  else if Qle_bool 5 avg then 1
  else if Qle_bool avg 3 then -2
  else 0.

Definition diversityAdjustment (distinct : Z) : Z :=
  if 4 <=? distinct then 1 else if distinct <=? 2 then -1 else 0.

Definition consistencyAdjustment (uniqueDayCount : Z) : Z :=
  if 6 <=? uniqueDayCount then 1 else if uniqueDayCount <=? 2 then -1 else 0.

Definition clamp (lo hi x : Z) : Z :=
  if x <? lo then lo else if hi <? x then hi else x.

Definition computeWeeklyScore (stats : WeeklyStats) : Z :=
  clamp 1 10
    (5 + intensityAdjustment (averageIntensity stats)
       + diversityAdjustment (Z.of_nat (length (moodDistribution stats)))
       + consistencyAdjustment (moodStreak stats)).

(** The recommendation rule table, one row per dominant mood. *)
Definition moodAdvice (dominantMood : string) (avg : Q) : option string :=
  if String.eqb dominantMood "ANXIOUS"
  then (if Qle_bool avg 6 then None else Some calmingAdvice)
  else if String.eqb dominantMood "SAD"
  then (if Qle_bool avg 5 then None else Some supportAdvice)
  else if String.eqb dominantMood "HAPPY"
  then (if Qle_bool avg 7 then None else Some sharingAdvice)
  else if String.eqb dominantMood "ENERGETIC" then Some energyAdvice
  else if String.eqb dominantMood "CALM" then Some reflectionAdvice
  else None.

End Spec.

(** Sum of the counts of a distribution. *)
Definition sumCounts (dist : JS.object Z) : Z :=
  fold_right (fun kv acc => kv.2 + acc) 0 dist.

(** Number of entries of a mood type. *)
Definition occurrences (m : MoodType) (moods : list Mood) : Z :=
  Z.of_nat (length (filter (fun e => moodKey (moodType e) = moodKey m) moods)).

(** The keys of a list in the order of their first occurrence. *)
Definition appendNew (keys : list string) (k : string) : list string :=
  if existsb (String.eqb k) keys then keys else keys ++ [k].

Definition firstOccurrences (ks : list string) : list string :=
  fold_left appendNew ks [].

(** A distribution is well formed when its keys are mood type names, each
    appears once, and every count is positive. *)
Definition wellFormedDistribution (d : JS.object Z) : Prop :=
  NoDup (JS.Object_keys d) /\
  Forall (fun kv => In kv.1 (map moodKey allMoodTypes) /\ 1 <= kv.2) d.

(** ** Concrete weeks used below *)

Definition scenario1 : list Mood :=
  [ mkMood "u" HAPPY 8 "2026-11-02";
    mkMood "u" HAPPY 6 "2026-11-03";
    mkMood "u" SAD 3 "2026-11-04" ].

(** HAPPY and CALM both logged twice, HAPPY first. *)
Definition tiedWeek : list Mood :=
  [ mkMood "u" HAPPY 6 "2026-11-02";
    mkMood "u" CALM 6 "2026-11-03";
    mkMood "u" HAPPY 6 "2026-11-04";
    mkMood "u" CALM 6 "2026-11-05" ].

(** One ordinary entry and one whose intensity is off the 1-10 scale. *)
Definition goodEntry : Mood := mkMood "u" HAPPY 5 "2026-11-02".
Definition offScaleEntry : Mood := mkMood "u" SAD 15 "2026-11-03".

(** Average intensity 7.5, four mood types, seven days. *)
Definition scenario3 : WeeklyStats :=
  {| totalMoods := 8;
     averageIntensity := (75 # 10)%Q;
     moodDistribution :=
       [("HAPPY"%string, 3); ("CALM"%string, 2); ("ENERGETIC"%string, 2); ("SAD"%string, 1)];
     moodStreak := 7 |}.

Definition emptyWeek : WeeklyStats := generateWeeklyStats [].

(** Noon UTC on Sunday 2026-11-01 and on Monday 2026-11-02. *)
Definition sundayNoon : Z := 20758 * Date.msPerDay + 43200000.
Definition mondayNoon : Z := 20759 * Date.msPerDay + 43200000.
Definition tuesdayNoon : Z := 20760 * Date.msPerDay + 43200000.

Definition freshComponent (stats : WeeklyStats) : Component :=
  mkComponent (Some stats) "u" [] None false [].

(** ** The button that starts the generation *)

(** The button is rendered when there are statistics and no insight for the
    current week, and is disabled while generating or when the week has no
    entries: [disabled={isGenerating || weeklyStats.totalMoods === 0}]. *)
Definition generateButtonEnabled (c : Component) : bool :=
  match weeklyStats c with
  | None => false
  | Some stats =>
      match currentWeekInsight c with
      | Some _ => false
      | None => negb (isGenerating c || (totalMoods stats =? 0))
      end
  end.

(** ** Loading the stored insights *)

(** [Array.prototype.sort] and [find].  The sort is stable and, for a
    comparator that orders the elements consistently, its result is
    determined: non-decreasing for the comparator, equal elements in their
    original order.  Inserting the elements from the right computes it. *)
Module JSArray.

Fixpoint insertBy {A} (cmp : A -> A -> Z) (x : A) (sorted : list A) : list A :=
  match sorted with
  | [] => [x]
  | y :: rest => if cmp x y <=? 0 then x :: y :: rest else y :: insertBy cmp x rest
  end.

Definition sort {A} (cmp : A -> A -> Z) (xs : list A) : list A :=
  fold_right (insertBy cmp) [] xs.

Definition find {A} (p : A -> bool) (xs : list A) : option A := List.find p xs.

End JSArray.

(** [new Date(s).getTime()] for a date-only string [YYYY-MM-DD]: midnight
    UTC of that day; [None] stands for [NaN], the time of an invalid date
    (any other shape of string is outside the model and treated alike). *)
Module DateString.

Definition digit (c : ascii) : option Z :=
  let n := Z.of_nat (nat_of_ascii c) in
  if (48 <=? n) && (n <=? 57) then Some (n - 48) else None.

Definition number (cs : list ascii) : option Z :=
  fold_left (fun acc c => a ← acc; d ← digit c; Some (10 * a + d)) cs (Some 0).

Definition isLeapYear (y : Z) : bool :=
  ((y mod 4 =? 0) && negb (y mod 100 =? 0)) || (y mod 400 =? 0).

Definition daysInMonth (y m : Z) : Z :=
  if m =? 2 then (if isLeapYear y then 29 else 28)
  else if (m =? 4) || (m =? 6) || (m =? 9) || (m =? 11) then 30
  else 31.

(** Day number of a proleptic Gregorian date, 1970-01-01 being day 0. *)
Definition daysFromCivil (y m d : Z) : Z :=
  let y := if m <=? 2 then y - 1 else y in
  let era := y / 400 in
  let yoe := y - era * 400 in
  let doy := (153 * (if 2 <? m then m - 3 else m + 9) + 2) / 5 + d - 1 in
  let doe := yoe * 365 + yoe / 4 - yoe / 100 + doy in
  era * 146097 + doe - 719468.

Definition getTime (s : string) : option Z :=
  match list_ascii_of_string s with
  | [y1; y2; y3; y4; s1; m1; m2; s2; d1; d2] =>
      if Ascii.eqb s1 "-" && Ascii.eqb s2 "-"
      then
        y ← number [y1; y2; y3; y4];
        m ← number [m1; m2];
        d ← number [d1; d2];
        if (1 <=? m) && (m <=? 12) && (1 <=? d) && (d <=? daysInMonth y m)
        then Some (daysFromCivil y m d * Date.msPerDay)
        else None
      else None
  | _ => None
  end.

End DateString.

(** The comparator of [loadInsights],
    [(a, b) => new Date(b.weekStartDate).getTime() - new Date(a.weekStartDate).getTime()];
    a [NaN] difference counts as 0 in a sort. *)
Definition newestFirst (a b : MoodInsightData) : Z :=
  match DateString.getTime (weekStartDate b), DateString.getTime (weekStartDate a) with
  | Some tb, Some ta => tb - ta
  | _, _ => 0
  end.

(** [loadInsights] once the query has answered: [data] is [result.data],
    the rows the store returned for the user. *)
Definition loadInsights (tz now : Z) (data : list MoodInsightData) (c : Component)
  : Component :=
  let sortedInsights := JSArray.sort newestFirst data in
  let currentWeek := getCurrentWeekStart tz now in
  let currentInsight :=
    JSArray.find
      (fun insight => String.eqb (weekStartDate insight) (Date.toISODate currentWeek))
      sortedInsights in
  mkComponent (weeklyStats c) (currentUserId c) sortedInsights currentInsight
    (isGenerating c) (alerts c).

(** Newer or equally new, by the time of the week start. *)
Definition notOlderThan (a b : MoodInsightData) : Prop :=
  exists ta tb,
    DateString.getTime (weekStartDate a) = Some ta /\
    DateString.getTime (weekStartDate b) = Some tb /\
    tb <= ta.

Definition insightOf (week : string) : MoodInsightData :=
  mkInsight "u" week week "stable" "HAPPY" (2 # 5) "text" "advice" "{}" 5.

(** ** The mood card ([MoodCard.tsx]) *)

(** [truncateNote], with the [showFullNote] state made an argument; the
    card calls it with the default [maxLength] of 150. *)
Definition truncateNote (showFullNote : bool) (note : string) (maxLength : nat) : string :=
  if (String.length note <=? maxLength)%nat then note
  else if showFullNote then note
  else (substring 0 maxLength note ++ "...")%string.

(** ** The entry form ([AddMoodEntry]) *)

(** White space that [trim] removes, among the ASCII characters. *)
Definition isWhiteSpace (c : ascii) : bool :=
  let n := nat_of_ascii c in
  (((9 <=? n) && (n <=? 13)) || (n =? 32))%nat.

Fixpoint skipWhiteSpace (cs : list ascii) : list ascii :=
  match cs with
  | [] => []
  | c :: rest => if isWhiteSpace c then skipWhiteSpace rest else cs
  end.

(** [s.trim()] *)
Definition trim (s : string) : string :=
  string_of_list_ascii
    (rev (skipWhiteSpace (rev (skipWhiteSpace (list_ascii_of_string s))))).

(** A string of ASCII characters only.  On such a string [trim] removes
    exactly what [String.prototype.trim] removes; the Unicode spaces it also
    strips (U+00A0, U+FEFF, U+2028 and the like) are not ASCII. *)
Definition asciiOnly (s : string) : Prop :=
  Forall (fun c => (nat_of_ascii c < 128)%nat) (list_ascii_of_string s).

(** The two pieces of form state the tag handlers touch. *)
Record TagForm : Type := mkTagForm {
  tags : list string;
  tagInput : string
}.

(** [tags.includes(t)] *)
Definition includes (xs : list string) (x : string) : bool :=
  existsb (String.eqb x) xs.

Definition addTag (f : TagForm) : TagForm :=
  let t := trim (tagInput f) in
  if negb (String.eqb t EmptyString) && negb (includes (tags f) t)
  then mkTagForm (tags f ++ [t]) EmptyString
  else f.

Definition removeTag (tagToRemove : string) (f : TagForm) : TagForm :=
  mkTagForm (List.filter (fun tag => negb (String.eqb tag tagToRemove)) (tags f))
            (tagInput f).

(** Tags as the handlers keep them: no repetition, none empty, none with
    white space around it. *)
Definition tidyTags (ts : list string) : Prop :=
  NoDup ts /\ Forall (fun t => t <> EmptyString /\ trim t = t) ts.

(** The [moodColor] enum of the [Mood] model. *)
Definition moodColorEnum : list string :=
  ["YELLOW"; "BLUE"; "ORANGE"; "GREEN"; "PURPLE"]%string.

(** The [moodColor] that [handleSubmit] puts in the entry:
    [Object.keys(MOOD_TYPES).find((key) => key === selectedMood)]. *)
Definition submittedMoodColor (selectedMood : MoodType) : option string :=
  JSArray.find (fun key => String.eqb key (moodKey selectedMood))
               (JS.Object_keys MOOD_TYPES).

Definition isAlnum (c : ascii) : bool :=
  let n := nat_of_ascii c in
  (((48 <=? n) && (n <=? 57)) || ((65 <=? n) && (n <=? 90))
   || ((97 <=? n) && (n <=? 122)))%nat.

(** The longest run of letters and digits a string starts with. *)
Fixpoint takeAlnum (s : string) : string :=
  match s with
  | EmptyString => EmptyString
  | String c rest => if isAlnum c then String c (takeAlnum rest) else EmptyString
  end.

Fixpoint skipChars (n : nat) (s : string) : string :=
  match n, s with
  | O, _ => s
  | S n', String _ rest => skipChars n' rest
  | S _, EmptyString => EmptyString
  end.

(** [link.match(/track\/([a-zA-Z0-9]+)/)]: the leftmost place where
    [track/] is followed by at least one letter or digit; the capture is the
    whole run of letters and digits there. *)
Fixpoint matchTrack (link : string) : option string :=
  match link with
  | EmptyString => None
  | String _ rest =>
      if String.prefix "track/" link
      then match takeAlnum (skipChars 6 link) with
           | EmptyString => matchTrack rest
           | id => Some id
           end
      else matchTrack rest
  end.

(** [parseSpotifyLink]: the track id, or [null]. *)
Definition parseSpotifyLink (link : string) : option string := matchTrack link.

Definition allAlnum (s : string) : Prop :=
  Forall (fun c => isAlnum c = true) (list_ascii_of_string s).

(** Nothing, or something that does not start with a letter or digit. *)
Definition endsTheId (s : string) : Prop :=
  match s with
  | EmptyString => True
  | String c _ => isAlnum c = false
  end.

(** ** The calendar header ([MoodCalendar]) *)

(** Year and month (1 to 12) of a day number. *)
Definition yearMonthOf (day : Z) : Z * Z :=
  let z := day + 719468 in
  let era := z / 146097 in
  let doe := z - era * 146097 in
  let yoe := (doe - doe / 1460 + doe / 36524 - doe / 146096) / 365 in
  let doy := doe - (365 * yoe + yoe / 4 - yoe / 100) in
  let mp := (5 * doy + 2) / 153 in
  let m := if mp <? 10 then mp + 3 else mp - 9 in
  (yoe + era * 400 + (if m <=? 2 then 1 else 0), m).

(** [d.getFullYear()] and [d.getMonth()] (0 to 11), in local time. *)
Definition getFullYear (tz t : Z) : Z := (yearMonthOf (Date.localDay tz t)).1.
Definition getMonth (tz t : Z) : Z := (yearMonthOf (Date.localDay tz t)).2 - 1.

Record CalendarStats : Type := mkCalendarStats {
  total : Z;
  thisMonth : Z;
  calendarAverage : Q;
  moodBreakdown : JS.object Z
}.

(** One round of the [forEach] of [getMoodStats], on the running
    [thisMonth], [totalIntensity] and [moodBreakdown]; an invalid date has
    no month and is not counted. *)
Definition countEntry (tz currentMonth currentYear : Z)
           (acc : Z * Z * JS.object Z) (mood : Mood) : Z * Z * JS.object Z :=
  let '(inMonth, totalIntensity, breakdown) := acc in
  let sameMonth :=
    match DateString.getTime (date mood) with
    | Some moodDate =>
        (getMonth tz moodDate =? currentMonth) && (getFullYear tz moodDate =? currentYear)
    | None => false
    end in
  (if sameMonth then inMonth + 1 else inMonth,
   totalIntensity + intensity mood,
   countMood breakdown mood).

Definition getMoodStats (tz now : Z) (moods : list Mood) : CalendarStats :=
  let currentMonth := getMonth tz now in
  let currentYear := getFullYear tz now in
  let '(inMonth, totalIntensity, breakdown) :=
    fold_left (countEntry tz currentMonth currentYear) moods (0, 0, []) in
  let count := Z.of_nat (length moods) in
  {| total := count;
     thisMonth := inMonth;
     calendarAverage :=
       if 0 <? count
       then (inject_Z (JS.Math_round ((inject_Z totalIntensity / inject_Z count) * 10)) / 10)%Q
       else 0%Q;
     moodBreakdown := breakdown |}.

(** A share link as the Spotify client produces it. *)
Definition shareLink (id rest : string) : string :=
  ("https://open.spotify.com/track/" ++ id ++ rest)%string.

(** * Properties *)

(** ** Objects as insertion-ordered property lists *)

Section ObjectLemmas.
Context {V : Type}.
Implicit Types (o : JS.object V) (k : string) (v : V).

Lemma get_set o k k' v :
  JS.get (JS.set o k v) k' = if String.eqb k' k then Some v else JS.get o k'.
Proof.
  induction o as [|[k0 v0] rest IH]; simpl.
  - reflexivity.
  - destruct (String.eqb_spec k k0) as [->|Hk]; simpl.
    + destruct (String.eqb_spec k' k0); reflexivity.
    + rewrite IH. destruct (String.eqb_spec k' k0) as [->|]; [|reflexivity].
      destruct (String.eqb_spec k0 k); congruence.
Qed.

Lemma get_Some_In o k v : JS.get o k = Some v -> In (k, v) o.
Proof.
  induction o as [|[k0 v0] rest IH]; simpl; [discriminate|].
  destruct (String.eqb_spec k k0) as [->|]; intros H.
  - left. congruence.
  - right. auto.
Qed.

Lemma In_set o k v e : In e (JS.set o k v) -> In e o \/ e = (k, v).
Proof.
  induction o as [|[k0 v0] rest IH]; simpl.
  - intros [<-|[]]. auto.
  - destruct (String.eqb_spec k k0) as [->|]; simpl.
    + intros [<-|H]; auto.
    + intros [<-|H]; [auto|]. destruct (IH H); auto.
Qed.

Lemma keys_set_NoDup o k v :
  NoDup (JS.Object_keys o) -> NoDup (JS.Object_keys (JS.set o k v)).
Proof.
  unfold JS.Object_keys.
  induction o as [|[k0 v0] rest IH]; simpl; intros Hnd.
  - apply NoDup_singleton.
  - apply NoDup_cons in Hnd as [Hnotin Hnd].
    destruct (String.eqb_spec k k0) as [->|Hne]; simpl.
    + apply NoDup_cons; auto.
    + apply NoDup_cons; split; [|auto].
      intros Hin. apply Hnotin.
      apply list_elem_of_In, in_map_iff in Hin as [[k1 v1] [Heq Hin]].
      simpl in Heq; subst k1.
      apply In_set in Hin as [Hin|Heq].
      * apply list_elem_of_In, in_map_iff. exists (k0, v1). auto.
      * congruence.
Qed.

End ObjectLemmas.

Lemma sumCounts_set (o : JS.object Z) k v :
  sumCounts (JS.set o k v) = sumCounts o - default 0 (JS.get o k) + v.
Proof.
  induction o as [|[k0 v0] rest IH]; simpl.
  - lia.
  - destruct (String.eqb_spec k k0) as [->|]; simpl; [lia|].
    rewrite IH. lia.
Qed.

(** ** The distribution built by [generateWeeklyStats] *)

Lemma countMood_set acc mood :
  countMood acc mood =
  JS.set acc (moodKey (moodType mood))
    (default 0 (JS.get acc (moodKey (moodType mood))) + 1).
Proof.
  unfold countMood.
  destruct (JS.get acc (moodKey (moodType mood))) as [c|]; simpl; [|reflexivity].
  destruct (Z.eqb_spec c 0) as [->|]; reflexivity.
Qed.

Lemma moodKey_inj m1 m2 : moodKey m1 = moodKey m2 -> m1 = m2.
Proof. destruct m1, m2; simpl; intros H; try reflexivity; discriminate H. Qed.

Lemma countMood_wellFormed acc mood :
  wellFormedDistribution acc -> wellFormedDistribution (countMood acc mood).
Proof.
  intros [Hnd Hall]. rewrite countMood_set. split.
  - apply keys_set_NoDup, Hnd.
  - apply Forall_forall. intros e He%list_elem_of_In.
    apply In_set in He as [He| ->].
    + rewrite Forall_forall in Hall. apply Hall, list_elem_of_In, He.
    + cbn [fst snd]. split.
      * apply in_map. destruct (moodType mood); simpl; tauto.
      * destruct (JS.get acc (moodKey (moodType mood))) as [c|] eqn:Hget; simpl; [|lia].
        apply get_Some_In in Hget. rewrite Forall_forall in Hall.
        apply list_elem_of_In, Hall in Hget. simpl in Hget. lia.
Qed.

Lemma fold_countMood_wellFormed moods acc :
  wellFormedDistribution acc ->
  wellFormedDistribution (fold_left countMood moods acc).
Proof.
  revert acc. induction moods as [|m rest IH]; simpl; intros acc H; [exact H|].
  apply IH, countMood_wellFormed, H.
Qed.

Lemma fold_countMood_sum moods acc :
  sumCounts (fold_left countMood moods acc)
  = sumCounts acc + Z.of_nat (length moods).
Proof.
  revert acc. induction moods as [|m rest IH]; intros acc.
  - simpl. lia.
  - cbn [fold_left length]. rewrite IH, countMood_set, sumCounts_set. lia.
Qed.

Lemma countMood_get acc mood k :
  JS.get (countMood acc mood) k =
  if String.eqb k (moodKey (moodType mood))
  then Some (default 0 (JS.get acc k) + 1)
  else JS.get acc k.
Proof.
  rewrite countMood_set, get_set.
  destruct (String.eqb_spec k (moodKey (moodType mood))) as [->|]; reflexivity.
Qed.

Lemma fold_countMood_get moods acc k :
  JS.get (fold_left countMood moods acc) k =
  let n := Z.of_nat (length (filter (fun e => moodKey (moodType e) = k) moods)) in
  if n =? 0 then JS.get acc k else Some (default 0 (JS.get acc k) + n).
Proof.
  revert acc. induction moods as [|m rest IH]; intros acc; [reflexivity|].
  cbn [fold_left]. rewrite IH, filter_cons, countMood_get. cbv zeta.
  destruct (decide (moodKey (moodType m) = k)) as [Heq|Hne].
  - subst k. rewrite String.eqb_refl. cbn [length].
    set (n := length (filter (fun e => moodKey (moodType e) = moodKey (moodType m)) rest)).
    destruct (Z.eqb_spec (Z.of_nat (S n)) 0) as [E|_]; [lia|].
    destruct (Z.eqb_spec (Z.of_nat n) 0) as [E|_]; cbn [default]; unfold id; f_equal; lia.
  - destruct (String.eqb_spec k (moodKey (moodType m))); [congruence|]. reflexivity.
Qed.

Lemma distributionOf_get moods m :
  JS.get (distributionOf moods) (moodKey m) =
  if occurrences m moods =? 0 then None else Some (occurrences m moods).
Proof.
  unfold distributionOf, occurrences. rewrite fold_countMood_get. cbv zeta.
  simpl JS.get. simpl default.
  destruct (_ =? 0); [reflexivity|]. f_equal.
Qed.

Lemma distributionOf_wellFormed moods :
  wellFormedDistribution (distributionOf moods).
Proof.
  apply fold_countMood_wellFormed. split; [apply NoDup_nil_2 | apply Forall_nil_2].
Qed.

(** C10. The distribution computed by [generateWeeklyStats] counts every
    aggregated entry exactly once: its counts add up to [totalMoods], each
    mood type is recorded with the number of its entries, every key is the
    name of one of the five mood types and appears once, and every recorded
    count is at least 1. *)
Theorem moodDistribution_counts_each_entry_once (moods : list Mood) :
  let stats := generateWeeklyStats moods in
  sumCounts (moodDistribution stats) = totalMoods stats /\
  (forall m, JS.get (moodDistribution stats) (moodKey m) =
             if occurrences m moods =? 0 then None else Some (occurrences m moods)) /\
  NoDup (JS.Object_keys (moodDistribution stats)) /\
  Forall (fun kv => In kv.1 (map moodKey allMoodTypes) /\ 1 <= kv.2)
         (moodDistribution stats).
Proof.
  cbn [generateWeeklyStats moodDistribution totalMoods].
  split; [|split].
  - unfold distributionOf. rewrite fold_countMood_sum. reflexivity.
  - intros m. apply distributionOf_get.
  - apply distributionOf_wellFormed.
Qed.

(** ** Every entry is aggregated *)

Lemma sumIntensity_from moods a :
  fold_left (fun sum mood => sum + intensity mood) moods a = a + sumIntensity moods.
Proof.
  unfold sumIntensity. revert a.
  induction moods as [|m rest IH]; intros a; simpl; [lia|].
  rewrite (IH (a + intensity m)), (IH (0 + intensity m)). lia.
Qed.

Lemma sumIntensity_cons m rest :
  sumIntensity (m :: rest) = intensity m + sumIntensity rest.
Proof. unfold sumIntensity at 1. simpl. apply sumIntensity_from. Qed.

Lemma sumIntensity_app l1 l2 :
  sumIntensity (l1 ++ l2) = sumIntensity l1 + sumIntensity l2.
Proof.
  induction l1 as [|m rest IH]; [reflexivity|].
  rewrite <- app_comm_cons, !sumIntensity_cons, IH. lia.
Qed.

Lemma occurrences_app m l1 l2 :
  occurrences m (l1 ++ l2) = occurrences m l1 + occurrences m l2.
Proof.
  unfold occurrences. rewrite filter_app, length_app. lia.
Qed.

Lemma uniqueDays_app l1 l2 :
  uniqueDays (l1 ++ l2) = uniqueDays l1 ∪ uniqueDays l2.
Proof.
  unfold uniqueDays. rewrite map_app. apply leibniz_equiv, list_to_set_app.
Qed.

(** C2, as the code has it.  [generateWeeklyStats] validates nothing: an
    entry of the input, whatever its intensity and date string, is counted
    in [totalMoods], adds its intensity to the averaged sum, is counted under
    its mood type and puts its date among the unique days; the aggregation is
    a total function and raises nothing. *)
Theorem every_entry_is_aggregated (before after : list Mood) (e : Mood) :
  let stats := generateWeeklyStats (before ++ e :: after) in
  totalMoods stats = Z.of_nat (length before) + 1 + Z.of_nat (length after) /\
  averageIntensity stats =
    Spec.roundToOneDecimal
      (inject_Z (sumIntensity before + intensity e + sumIntensity after)
       / inject_Z (totalMoods stats)) /\
  JS.get (moodDistribution stats) (moodKey (moodType e)) =
    Some (occurrences (moodType e) before + 1 + occurrences (moodType e) after) /\
  moodStreak stats =
    Z.of_nat (size (uniqueDays before ∪ {[date e]} ∪ uniqueDays after)).
Proof.
  cbn [generateWeeklyStats moodDistribution totalMoods averageIntensity moodStreak].
  assert (Hlen : Z.of_nat (length (before ++ e :: after))
                 = Z.of_nat (length before) + 1 + Z.of_nat (length after)).
  { rewrite length_app. cbn [length]. lia. }
  split; [exact Hlen|]. split; [|split].
  - destruct (Z.ltb_spec 0 (Z.of_nat (length (before ++ e :: after)))) as [_|Hle]; [|lia].
    rewrite sumIntensity_app, sumIntensity_cons.
    unfold Spec.roundToOneDecimal, JS.Math_round.
    rewrite Z.add_assoc. reflexivity.
  - rewrite distributionOf_get.
    assert (Hocc : occurrences (moodType e) (before ++ e :: after)
                   = occurrences (moodType e) before + 1 + occurrences (moodType e) after).
    { rewrite occurrences_app. unfold occurrences at 2.
      rewrite filter_cons. destruct (decide _) as [_|Hne]; [|congruence].
      cbn [length]. unfold occurrences. lia. }
    rewrite Hocc.
    assert (0 <= occurrences (moodType e) before) by (unfold occurrences; lia).
    assert (0 <= occurrences (moodType e) after) by (unfold occurrences; lia).
    destruct (Z.eqb_spec (occurrences (moodType e) before + 1 + occurrences (moodType e) after) 0); [lia|].
    reflexivity.
  - unfold calculateMoodStreak. f_equal. f_equal.
    rewrite uniqueDays_app. unfold uniqueDays at 2. cbn [map list_to_set].
    fold (uniqueDays after). rewrite (assoc_L (∪)). reflexivity.
Qed.

(** C2, as the specification states it, fails: an entry whose intensity is
    off the 1-10 scale is aggregated like any other, so the statistics of a
    week differ from those of its well-formed entries alone. *)
Lemma off_scale_entry_is_not_skipped :
  Spec.wellFormed goodEntry = true /\
  Spec.wellFormed offScaleEntry = false /\
  let stats := generateWeeklyStats [goodEntry; offScaleEntry] in
  let kept := generateWeeklyStats (filter (fun m => Spec.wellFormed m = true) [goodEntry; offScaleEntry]) in
  totalMoods stats = 2 /\ totalMoods kept = 1 /\
  Qred (averageIntensity stats) = 10%Q /\ Qred (averageIntensity kept) = 5%Q /\
  JS.get (moodDistribution stats) "SAD" = Some 1 /\
  JS.get (moodDistribution kept) "SAD" = None /\
  moodStreak stats = 2 /\ moodStreak kept = 1.
Proof. vm_compute. repeat (split; [reflexivity|]). reflexivity. Qed.

(** ** Dominant mood *)

Lemma reduce_keeps_last_maximum (rest : list (string * Z)) (first : string * Z) :
  let best := fold_left largerEntry rest first in
  exists before after,
    first :: rest = before ++ best :: after /\
    Forall (fun kv => kv.2 <= best.2) before /\
    Forall (fun kv => kv.2 < best.2) after.
Proof.
  induction rest as [|x rest IH] using rev_ind; cbv zeta.
  - exists [], []. simpl. auto.
  - rewrite fold_left_app. cbn [fold_left].
    destruct IH as (before & after & Hsplit & Hbefore & Hafter).
    set (best := fold_left largerEntry rest first) in *.
    unfold largerEntry.
    destruct (Z.gtb_spec best.2 x.2) as [Hgt|Hle].
    + exists before, (after ++ [x]). split; [|split].
      * rewrite app_comm_cons, Hsplit, <- app_assoc. reflexivity.
      * exact Hbefore.
      * apply Forall_app. split; [exact Hafter|]. apply Forall_singleton. lia.
    + exists (first :: rest), []. split; [|split].
      * reflexivity.
      * rewrite Hsplit. apply Forall_app. split.
        -- eapply Forall_impl; [exact Hbefore|]. simpl. intros; lia.
        -- apply Forall_cons. split; [lia|].
           eapply Forall_impl; [exact Hafter|]. simpl. intros; lia.
      * apply Forall_nil_2.
Qed.

Lemma keys_set {V} (o : JS.object V) (k : string) (v : V) :
  JS.Object_keys (JS.set o k v) = appendNew (JS.Object_keys o) k.
Proof.
  unfold JS.Object_keys, appendNew.
  induction o as [|[k0 v0] rest IH]; [reflexivity|].
  cbn [JS.set map existsb fst].
  destruct (String.eqb_spec k k0) as [->|Hne]; [reflexivity|].
  cbn [map fst orb]. rewrite IH.
  destruct (existsb (String.eqb k) (map fst rest)); reflexivity.
Qed.

(** The distribution lists the mood types in the order in which they first
    occur among the entries. *)
Lemma distribution_keys_in_first_occurrence_order (moods : list Mood) :
  JS.Object_keys (distributionOf moods)
  = firstOccurrences (map (fun e => moodKey (moodType e)) moods).
Proof.
  unfold distributionOf, firstOccurrences.
  change (@nil string) with (JS.Object_keys (@nil (string * Z))).
  generalize (@nil (string * Z)) as acc.
  induction moods as [|m rest IH]; intros acc; [reflexivity|].
  cbn [fold_left map]. rewrite IH, countMood_set, keys_set. reflexivity.
Qed.

(** C1, as the code has it.  On a non-empty distribution the selection
    returns an entry whose count is maximal, and among entries tied for the
    maximum the one that comes last in the insertion order of the
    distribution's keys (the order in which the mood types first occur
    among the week's entries): no entry before it has a larger count and
    every entry after it has a strictly smaller one. *)
Theorem dominant_mood_is_last_maximum (first : string * Z) (rest : JS.object Z) :
  exists m c before after,
    dominantMoodEntry (first :: rest) = JS.Normal (m, c) /\
    dominantMoodOf (first :: rest) = JS.Normal m /\
    first :: rest = before ++ (m, c) :: after /\
    Forall (fun kv => kv.2 <= c) before /\
    Forall (fun kv => kv.2 < c) after.
Proof.
  destruct (reduce_keeps_last_maximum rest first) as (before & after & Hsplit & Hb & Ha).
  unfold dominantMoodOf, dominantMoodEntry, JS.Object_entries, JS.reduce1.
  destruct (fold_left largerEntry rest first) as [m c] eqn:Hbest.
  exists m, c, before, after. cbn in *. auto.
Qed.

(** C1, as the specification states it, fails: for a week with HAPPY and
    CALM both logged twice and HAPPY logged first, declaration order would
    give HAPPY, and the code gives CALM. *)
Lemma tie_resolves_to_the_later_key :
  let dist := moodDistribution (generateWeeklyStats tiedWeek) in
  JS.get dist "HAPPY" = Some 2 /\
  JS.get dist "CALM" = Some 2 /\
  Spec.classifyDominantMood dist = Some HAPPY /\
  dominantMoodOf dist = JS.Normal "CALM"%string.
Proof. vm_compute. repeat (split; [reflexivity|]). reflexivity. Qed.

(** ** Weekly score *)

Lemma clamp_max_min x : JS.Math_max 1 (JS.Math_min 10 x) = Spec.clamp 1 10 x.
Proof.
  unfold JS.Math_max, JS.Math_min, Spec.clamp.
  destruct (Z.ltb_spec x 1); [lia|]. destruct (Z.ltb_spec 10 x); lia.
Qed.

Lemma calculateWeeklyScore_spec (stats : WeeklyStats) :
  calculateWeeklyScore (Some stats) = Spec.computeWeeklyScore stats.
Proof.
  unfold calculateWeeklyScore, Spec.computeWeeklyScore. cbv zeta.
  rewrite clamp_max_min. f_equal.
  unfold Spec.intensityAdjustment, Spec.diversityAdjustment,
    Spec.consistencyAdjustment, JS.Object_keys.
  rewrite length_map.
  set (n := Z.of_nat (length (moodDistribution stats))).
  destruct (Qle_bool 7 (averageIntensity stats));
    [|destruct (Qle_bool 5 (averageIntensity stats));
      [|destruct (Qle_bool (averageIntensity stats) 3)]];
    destruct (Z.leb_spec 4 n); destruct (Z.leb_spec n 2);
    destruct (Z.leb_spec 6 (moodStreak stats));
    destruct (Z.leb_spec (moodStreak stats) 2); lia.
Qed.

(** C5. [calculateWeeklyScore] is the base 5 plus the intensity adjustment
    (+2 from 7 up, else +1 from 5 up, else -2 up to 3, checked in that
    order), plus the diversity adjustment (+1 from 4 mood types up, -1 up to
    2), plus the consistency adjustment (+1 from 6 days up, -1 up to 2),
    clamped once to the range 1 to 10; an average of 7.5 with 4 mood types on
    7 days scores 9. *)
Theorem weekly_score_follows_the_rule :
  (forall stats, calculateWeeklyScore (Some stats) = Spec.computeWeeklyScore stats) /\
  (forall stats,
      (averageIntensity stats == 75 # 10)%Q ->
      length (JS.Object_keys (moodDistribution stats)) = 4%nat ->
      moodStreak stats = 7 ->
      calculateWeeklyScore (Some stats) = 9).
Proof.
  split; [exact calculateWeeklyScore_spec|].
  intros stats Havg Hkeys Hstreak.
  unfold calculateWeeklyScore. cbv zeta. rewrite Hkeys, Hstreak.
  assert (H7 : Qle_bool 7 (averageIntensity stats) = true).
  { apply Qle_bool_iff. rewrite Havg. discriminate. }
  rewrite H7. reflexivity.
Qed.

Lemma weekly_score_follows_the_rule_witness :
  (averageIntensity scenario3 == 75 # 10)%Q /\
  length (JS.Object_keys (moodDistribution scenario3)) = 4%nat /\
  moodStreak scenario3 = 7 /\
  calculateWeeklyScore (Some scenario3) = 9.
Proof.
  repeat (split; [reflexivity|]).
  apply (proj2 weekly_score_follows_the_rule scenario3); reflexivity.
Defined.

(** C6. Whatever statistics it is given (none at all, those of an empty
    week, or any others), [calculateWeeklyScore] returns an integer between
    1 and 10. *)
Theorem weekly_score_in_range (stats : option WeeklyStats) :
  1 <= calculateWeeklyScore stats <= 10.
Proof.
  destruct stats as [stats|]; [|simpl; lia].
  rewrite calculateWeeklyScore_spec. unfold Spec.computeWeeklyScore, Spec.clamp.
  match goal with |- context [if ?x <? 1 then _ else _] => set (score := x) end.
  destruct (Z.ltb_spec score 1); [lia|]. destruct (Z.ltb_spec 10 score); lia.
Qed.

Example empty_week_score : calculateWeeklyScore (Some emptyWeek) = 1.
Proof. reflexivity. Qed.

(** ** Average intensity *)

Lemma sumIntensity_bounds (moods : list Mood) :
  Forall (fun m => 1 <= intensity m <= 10) moods ->
  Z.of_nat (length moods) <= sumIntensity moods <= 10 * Z.of_nat (length moods).
Proof.
  induction 1 as [|m rest Hm _ IH].
  - unfold sumIntensity. simpl. lia.
  - rewrite sumIntensity_cons. cbn [length]. lia.
Qed.

Lemma mean_bounds (s n : Z) :
  0 < n -> n <= s <= 10 * n ->
  (1 <= inject_Z s / inject_Z n <= 10)%Q.
Proof.
  intros Hn [Hlo Hhi].
  assert (Hn' : (0 < inject_Z n)%Q) by (change 0%Q with (inject_Z 0); rewrite <- Zlt_Qlt; exact Hn).
  split.
  - apply Qle_shift_div_l; [exact Hn'|].
    rewrite Qmult_1_l, <- Zle_Qle. exact Hlo.
  - apply Qle_shift_div_r; [exact Hn'|].
    change 10%Q with (inject_Z 10). rewrite <- inject_Z_mult, <- Zle_Qle. exact Hhi.
Qed.

(** Rounding to one decimal stays within a twentieth of the exact value. *)
Lemma roundToOneDecimal_close (x : Q) :
  (x - (1 # 20) < Spec.roundToOneDecimal x <= x + (1 # 20))%Q.
Proof.
  unfold Spec.roundToOneDecimal.
  pose proof (Qfloor_le (x * 10 + (1 # 2))) as Hle.
  pose proof (Qlt_floor (x * 10 + (1 # 2))) as Hlt.
  rewrite inject_Z_plus in Hlt. change (inject_Z 1) with 1%Q in Hlt.
  set (k := inject_Z (Qfloor (x * 10 + (1 # 2)))) in *.
  unfold Qdiv. change (/ 10)%Q with (1 # 10)%Q.
  split; lra.
Qed.

Lemma roundToOneDecimal_bounds (x : Q) :
  (1 <= x <= 10)%Q -> (1 <= Spec.roundToOneDecimal x <= 10)%Q.
Proof.
  intros [Hlo Hhi]. unfold Spec.roundToOneDecimal.
  assert (H1 : Qfloor (1 * 10 + (1 # 2)) <= Qfloor (x * 10 + (1 # 2))).
  { apply Qfloor_resp_le. lra. }
  assert (H2 : Qfloor (x * 10 + (1 # 2)) <= Qfloor (10 * 10 + (1 # 2))).
  { apply Qfloor_resp_le. lra. }
  change (Qfloor (1 * 10 + (1 # 2))) with 10 in H1.
  change (Qfloor (10 * 10 + (1 # 2))) with 100 in H2.
  rewrite Zle_Qle in H1, H2.
  set (k := inject_Z (Qfloor (x * 10 + (1 # 2)))) in *.
  change (inject_Z 10) with 10%Q in H1. change (inject_Z 100) with 100%Q in H2.
  unfold Qdiv. change (/ 10)%Q with (1 # 10)%Q.
  split; lra.
Qed.

Lemma averageIntensity_nonempty (moods : list Mood) :
  0 < Z.of_nat (length moods) ->
  averageIntensity (generateWeeklyStats moods) =
  Spec.roundToOneDecimal
    (inject_Z (sumIntensity moods) / inject_Z (Z.of_nat (length moods))).
Proof.
  intros Hpos. cbn [generateWeeklyStats averageIntensity].
  destruct (Z.ltb_spec 0 (Z.of_nat (length moods))); [reflexivity|lia].
Qed.

(** C7. When every intensity is an integer from 1 to 10, the
    [averageIntensity] of [generateWeeklyStats] is the sum of the entries'
    intensities divided by [totalMoods], rounded to one decimal place (the
    multiple of a tenth within a twentieth of the quotient, halves upwards);
    it lies between 0 and 10; and it is 0 exactly when [totalMoods] is 0,
    the empty input being answered with 0 and no division. *)
Theorem averageIntensity_is_rounded_mean (moods : list Mood) :
  Forall (fun m => 1 <= intensity m <= 10) moods ->
  let stats := generateWeeklyStats moods in
  let mean := (inject_Z (sumIntensity moods) / inject_Z (totalMoods stats))%Q in
  (0 < totalMoods stats ->
     averageIntensity stats = Spec.roundToOneDecimal mean /\
     (mean - (1 # 20) < averageIntensity stats <= mean + (1 # 20))%Q) /\
  (0 <= averageIntensity stats <= 10)%Q /\
  ((averageIntensity stats == 0)%Q <-> totalMoods stats = 0).
Proof.
  intros Hrange. cbv zeta. cbn [totalMoods generateWeeklyStats].
  pose proof (sumIntensity_bounds moods Hrange) as Hsum.
  destruct (Z.eq_dec (Z.of_nat (length moods)) 0) as [Hzero|Hnz].
  - destruct moods; [|discriminate Hzero].
    split; [intros H; simpl in H; lia|]. split.
    + vm_compute. split; discriminate.
    + split; reflexivity.
  - assert (Hpos : 0 < Z.of_nat (length moods)) by lia.
    fold (generateWeeklyStats moods).
    rewrite (averageIntensity_nonempty moods Hpos).
    pose proof (mean_bounds _ _ Hpos Hsum) as Hmean.
    pose proof (roundToOneDecimal_bounds _ Hmean) as Hround.
    split; [|split].
    + intros _. split; [reflexivity|]. apply roundToOneDecimal_close.
    + split; lra.
    + split; [intros Heq; rewrite Heq in Hround; lra | intros; lia].
Qed.

Lemma averageIntensity_is_rounded_mean_witness :
  Forall (fun m => 1 <= intensity m <= 10) scenario1 /\
  Qred (averageIntensity (generateWeeklyStats scenario1)) = (57 # 10)%Q /\
  (0 <= averageIntensity (generateWeeklyStats scenario1) <= 10)%Q.
Proof.
  assert (H : Forall (fun m => 1 <= intensity m <= 10) scenario1).
  { repeat constructor; simpl; lia. }
  split; [exact H|]. split; [reflexivity|].
  exact (proj1 (proj2 (averageIntensity_is_rounded_mean scenario1 H))).
Defined.

(** ** Recommendation text *)

(** The text assembled from an optional mood sentence and the consistency
    reminder. *)
Lemma recommendations_assembled (stats : WeeklyStats) (dominantMood : string) :
  generateMockRecommendations (Some stats) dominantMood =
  match Spec.moodAdvice dominantMood (averageIntensity stats),
        moodStreak stats <? 3 with
  | Some s, true => (s ++ " " ++ consistencyReminder)%string
  | Some s, false => s
  | None, true => consistencyReminder
  | None, false => genericEncouragement
  end.
Proof.
  unfold generateMockRecommendations, Spec.moodAdvice. cbv zeta.
  destruct (String.eqb_spec dominantMood "ANXIOUS") as [->|_];
    [|destruct (String.eqb_spec dominantMood "SAD") as [->|_];
      [|destruct (String.eqb_spec dominantMood "HAPPY") as [->|_];
        [|destruct (String.eqb_spec dominantMood "ENERGETIC") as [->|_];
          [|destruct (String.eqb_spec dominantMood "CALM") as [->|_]]]]];
    cbn [andb negb String.eqb Ascii.eqb Bool.eqb];
    repeat match goal with
      | |- context [Qle_bool ?a ?b] => destruct (Qle_bool a b)
      end;
    cbn [andb negb];
    destruct (moodStreak stats <? 3); reflexivity.
Qed.

Lemma moodAdvice_cases (dominantMood : string) (avg : Q) :
  In (Spec.moodAdvice dominantMood avg)
     [None; Some calmingAdvice; Some supportAdvice; Some sharingAdvice;
      Some energyAdvice; Some reflectionAdvice].
Proof.
  unfold Spec.moodAdvice.
  repeat match goal with
    | |- context [if ?c then _ else _] => destruct c
    end; simpl; tauto.
Qed.

(** C9. [generateMockRecommendations] selects the mood sentence by the rule
    table (ANXIOUS above 6: calming; SAD above 5: support; HAPPY above 7:
    sharing; ENERGETIC: energy; CALM: reflection; otherwise none), appends
    the consistency reminder exactly when the streak is below 3, never
    returns the empty string, and returns the generic encouragement exactly
    when no mood rule matched and the streak is at least 3. *)
Theorem recommendations_follow_the_rule_table
  (stats : WeeklyStats) (dominantMood : string) :
  let text := generateMockRecommendations (Some stats) dominantMood in
  let advice := Spec.moodAdvice dominantMood (averageIntensity stats) in
  text = match advice, moodStreak stats <? 3 with
         | Some s, true => (s ++ " " ++ consistencyReminder)%string
         | Some s, false => s
         | None, true => consistencyReminder
         | None, false => genericEncouragement
         end /\
  text <> EmptyString /\
  (text = genericEncouragement <-> advice = None /\ 3 <= moodStreak stats).
Proof.
  cbv zeta. rewrite recommendations_assembled.
  split; [reflexivity|].
  pose proof (moodAdvice_cases dominantMood (averageIntensity stats)) as Hcases.
  destruct (Z.ltb_spec (moodStreak stats) 3) as [Hlt|Hge];
    simpl in Hcases;
    repeat (destruct Hcases as [<-|Hcases]);
    try contradiction;
    (split; [discriminate|]);
    (split; [intros H; first [discriminate H | split; [reflexivity|lia]]
            |intros [Hnone Hstreak];
             first [discriminate Hnone | lia | reflexivity]]).
Qed.

(** ** Week boundaries *)

Lemma localDay_addDays (tz t k : Z) :
  Date.localDay tz (Date.addDays t k) = Date.localDay tz t + k.
Proof.
  unfold Date.localDay, Date.localMs, Date.addDays, Date.msPerDay.
  Z.div_mod_to_equations. lia.
Qed.

Lemma localDay_setHours0 (tz t : Z) :
  Date.localDay tz (Date.setHours0 tz t) = Date.localDay tz t.
Proof.
  unfold Date.localDay, Date.setHours0, Date.localMs, Date.msPerDay.
  Z.div_mod_to_equations. lia.
Qed.

Lemma setHours0_midnight (tz t : Z) :
  Date.localMs tz (Date.setHours0 tz t) mod Date.msPerDay = 0.
Proof.
  unfold Date.setHours0, Date.localMs, Date.msPerDay.
  Z.div_mod_to_equations. lia.
Qed.

Lemma getDay_range (tz t : Z) : 0 <= Date.getDay tz t < 7.
Proof. unfold Date.getDay. apply Z.mod_pos_bound. lia. Qed.

(** The day [getCurrentWeekStart] lands on. *)
Lemma getCurrentWeekStart_day (tz now : Z) :
  Date.localDay tz (getCurrentWeekStart tz now)
  = Date.localDay tz now - Date.getDay tz now + 1.
Proof.
  unfold getCurrentWeekStart. cbv zeta.
  rewrite localDay_setHours0, localDay_addDays. lia.
Qed.

(** It is always a Monday, at local midnight. *)
Lemma getCurrentWeekStart_is_a_monday (tz now : Z) :
  Date.getDay tz (getCurrentWeekStart tz now) = 1 /\
  Date.localMs tz (getCurrentWeekStart tz now) mod Date.msPerDay = 0.
Proof.
  split.
  - unfold Date.getDay at 1. rewrite getCurrentWeekStart_day.
    unfold Date.getDay. Z.div_mod_to_equations. lia.
  - unfold getCurrentWeekStart. cbv zeta. apply setHours0_midnight.
Qed.

(** From Monday to Saturday it is the Monday of the ISO week of [now]. *)
Lemma getCurrentWeekStart_weekday (tz now : Z) :
  Date.getDay tz now <> 0 ->
  Date.localDay tz (getCurrentWeekStart tz now)
  = Date.isoMonday (Date.localDay tz now).
Proof.
  intros Hday. rewrite getCurrentWeekStart_day.
  unfold Date.isoMonday, Date.getDay in *. Z.div_mod_to_equations. lia.
Qed.

(** On a Sunday it is the next day: the Monday of the following ISO week. *)
Lemma getCurrentWeekStart_sunday (tz now : Z) :
  Date.getDay tz now = 0 ->
  Date.localDay tz (getCurrentWeekStart tz now) = Date.localDay tz now + 1 /\
  Date.localDay tz (getCurrentWeekStart tz now)
  = Date.isoMonday (Date.localDay tz now) + 7.
Proof.
  intros Hday. rewrite getCurrentWeekStart_day.
  unfold Date.isoMonday, Date.getDay in *. Z.div_mod_to_equations. lia.
Qed.

(** The week end is six days after the week start, at the same local time. *)
Lemma weekEndOf_six_days_later (tz currentWeek : Z) :
  Date.localDay tz (weekEndOf currentWeek) = Date.localDay tz currentWeek + 6 /\
  weekEndOf currentWeek - currentWeek = 6 * Date.msPerDay /\
  Date.toISODate (weekEndOf currentWeek)
  = Date.isoDate (currentWeek / Date.msPerDay + 6).
Proof.
  unfold weekEndOf. split; [apply localDay_addDays|].
  unfold Date.addDays, Date.toISODate. split; [lia|].
  f_equal. unfold Date.msPerDay. Z.div_mod_to_equations. lia.
Qed.

(** C4, at a Sunday.  At noon on Sunday 2026-11-01 (UTC zone) the ISO week
    began on Monday 2026-10-26, and [getCurrentWeekStart] answers Monday
    2026-11-02, a day that has not begun; the week end is six days after
    it. *)
Theorem week_start_on_a_sunday_is_the_next_day :
  Date.getDay 0 sundayNoon = 0 /\
  Date.isoDate (Date.localDay 0 sundayNoon) = "2026-11-01"%string /\
  Date.isoDate (Date.isoMonday (Date.localDay 0 sundayNoon)) = "2026-10-26"%string /\
  Date.toISODate (getCurrentWeekStart 0 sundayNoon) = "2026-11-02"%string /\
  sundayNoon < getCurrentWeekStart 0 sundayNoon /\
  Date.toISODate (weekEndOf (getCurrentWeekStart 0 sundayNoon)) = "2026-11-08"%string.
Proof. vm_compute. repeat (split; [reflexivity|]). reflexivity. Qed.

(** In a zone ahead of UTC the week start is local midnight, which is still
    the previous day in UTC, the day [toISOString] prints. *)
Example week_start_date_ahead_of_utc :
  Date.isoDate (Date.localDay 60 mondayNoon) = "2026-11-02"%string /\
  Date.toISODate (getCurrentWeekStart 60 mondayNoon) = "2026-11-01"%string.
Proof. vm_compute. split; reflexivity. Qed.

(** ** Insight generation on an empty week *)

Lemma distributionOf_nil (moods : list Mood) :
  distributionOf moods = [] <-> moods = [].
Proof.
  split; [|intros ->; reflexivity].
  intros Hnil. pose proof (fold_countMood_sum moods []) as Hsum.
  fold (distributionOf moods) in Hsum. rewrite Hnil in Hsum.
  destruct moods; [reflexivity|]. cbn in Hsum. lia.
Qed.

Lemma countOf_generated (moods : list Mood) (m : MoodType) :
  Spec.countOf (distributionOf moods) m = occurrences m moods.
Proof.
  unfold Spec.countOf. rewrite distributionOf_get.
  destruct (Z.eqb_spec (occurrences m moods) 0) as [->|]; reflexivity.
Qed.

Lemma classifyDominantMood_None (dist : JS.object Z) :
  Spec.classifyDominantMood dist = None <-> forall m, Spec.countOf dist m <= 0.
Proof.
  unfold Spec.classifyDominantMood. cbn [fold_left allMoodTypes].
  repeat match goal with
    | |- context [if ?x <? ?y then _ else _] => destruct (Z.ltb_spec x y)
    end;
    (split;
     [ intros Hnone; first [discriminate Hnone | intros m; destruct m; lia]
     | intros Hall; first [reflexivity | exfalso;
         pose proof (Hall HAPPY); pose proof (Hall SAD); pose proof (Hall ENERGETIC);
         pose proof (Hall CALM); pose proof (Hall ANXIOUS); lia] ]).
Qed.

(** C8. With [totalMoods] equal to 0 the guard of [generateAIInsight]
    returns before any dominant mood is selected: the user is told that there
    is not enough data, nothing fails, no text is generated and nothing is
    created in the store.  On the statistics [generateWeeklyStats] computes,
    that guard case is exactly the case where the distribution is empty and
    where the specification's classification returns none; in every other
    case the selection has something to select from and does not throw. *)
Theorem empty_week_generates_nothing :
  (forall (tz now : Z) (c : Component) (db : InsightStore.t) (stats : WeeklyStats),
      weeklyStats c = Some stats ->
      totalMoods stats = 0 ->
      generateAIInsight tz now c db = (alert notEnoughData c, db) /\
      let c' := (generateAIInsight tz now c db).1 in
      alerts c' = alerts c ++ [notEnoughData] /\
      insightList c' = insightList c /\
      currentWeekInsight c' = currentWeekInsight c /\
      (generateAIInsight tz now c db).2 = db) /\
  (forall moods : list Mood,
      let stats := generateWeeklyStats moods in
      (totalMoods stats = 0 <-> moodDistribution stats = []) /\
      (Spec.classifyDominantMood (moodDistribution stats) = None
       <-> totalMoods stats = 0) /\
      (totalMoods stats <> 0 ->
       JS.is_normal (dominantMoodOf (moodDistribution stats)) = true)).
Proof.
  split.
  - intros tz now c db stats Hstats Hzero.
    assert (H : generateAIInsight tz now c db = (alert notEnoughData c, db)).
    { unfold generateAIInsight. rewrite Hstats, Hzero. reflexivity. }
    rewrite H. cbn. auto.
  - intros moods. cbv zeta. cbn [generateWeeklyStats totalMoods moodDistribution].
    assert (Hlen : Z.of_nat (length moods) = 0 <-> moods = []).
    { destruct moods; cbn [length]; split; intros H; try reflexivity;
        try discriminate H; lia. }
    split; [|split].
    + rewrite distributionOf_nil. exact Hlen.
    + rewrite classifyDominantMood_None, Hlen. split.
      * intros Hall. destruct moods as [|e rest]; [reflexivity|]. exfalso.
        specialize (Hall (moodType e)). rewrite countOf_generated in Hall.
        unfold occurrences in Hall. rewrite filter_cons in Hall.
        destruct (decide (moodKey (moodType e) = moodKey (moodType e))) as [_|Hne];
          [|congruence].
        cbn [length] in Hall. lia.
      * intros -> m. rewrite countOf_generated. unfold occurrences. cbn. lia.
    + intros Hne. destruct (distributionOf moods) as [|first rest] eqn:Hdist.
      * apply distributionOf_nil in Hdist. apply Hlen in Hdist. contradiction.
      * reflexivity.
Qed.

Lemma empty_week_generates_nothing_witness :
  weeklyStats (freshComponent emptyWeek) = Some emptyWeek /\
  totalMoods emptyWeek = 0 /\
  Spec.classifyDominantMood (moodDistribution emptyWeek) = None /\
  generateAIInsight 0 mondayNoon (freshComponent emptyWeek) []
  = (alert notEnoughData (freshComponent emptyWeek), []) /\
  totalMoods (generateWeeklyStats scenario1) <> 0 /\
  JS.is_normal (dominantMoodOf (moodDistribution (generateWeeklyStats scenario1))) = true.
Proof.
  split; [reflexivity|]. split; [reflexivity|]. split; [reflexivity|].
  split.
  - exact (proj1 (proj1 empty_week_generates_nothing 0 mondayNoon
                    (freshComponent emptyWeek) [] emptyWeek eq_refl eq_refl)).
  - assert (H : totalMoods (generateWeeklyStats scenario1) <> 0) by discriminate.
    split; [exact H|].
    exact (proj2 (proj2 (proj2 empty_week_generates_nothing scenario1)) H).
Defined.

(** ** The insight store *)

Module StoreFacts.
Import InsightStore.

Lemma key_eqb_eq (a b : key) : key_eqb a b = true <-> a = b.
Proof.
  destruct a as [a1 a2], b as [b1 b2]. unfold key_eqb. cbn [fst snd].
  rewrite andb_true_iff, !String.eqb_eq. split.
  - intros [-> ->]. reflexivity.
  - intros H. inversion H. auto.
Qed.

Lemma has_key_elem (db : t) (k : key) :
  has_key db k = true <-> k ∈ map keyOf db.
Proof.
  unfold has_key. rewrite existsb_exists, list_elem_of_In, in_map_iff.
  split; intros (r & H1 & H2); exists r.
  - apply key_eqb_eq in H2. auto.
  - split; [exact H2|]. apply key_eqb_eq. exact H1.
Qed.

Lemma createInsight_duplicate (db : t) (r : MoodInsightData) :
  has_key db (keyOf r) = true ->
  createInsight db r = (db, mkResponse None [DuplicateKey]).
Proof. intros H. unfold createInsight. rewrite H. reflexivity. Qed.

Lemma createInsight_fresh (db : t) (r : MoodInsightData) :
  has_key db (keyOf r) = false ->
  createInsight db r = (db ++ [r], mkResponse (Some r) []).
Proof. intros H. unfold createInsight. rewrite H. reflexivity. Qed.

Lemma createInsight_has_key (db : t) (r : MoodInsightData) :
  has_key (createInsight db r).1 (keyOf r) = true.
Proof.
  unfold createInsight. destruct (has_key db (keyOf r)) eqn:H; cbn [fst]; [exact H|].
  apply has_key_elem. rewrite map_app. apply elem_of_app. right.
  cbn [map]. apply list_elem_of_singleton. reflexivity.
Qed.

Lemma createInsight_keeps_keys_unique (db : t) (r : MoodInsightData) :
  NoDup (map keyOf db) -> NoDup (map keyOf (createInsight db r).1).
Proof.
  intros Hnd. unfold createInsight.
  destruct (has_key db (keyOf r)) eqn:H; cbn [fst]; [exact Hnd|].
  rewrite map_app. apply NoDup_app. split; [exact Hnd|]. split.
  - intros k Hk Hk'. cbn [map] in Hk'. apply list_elem_of_singleton in Hk'. subst k.
    apply has_key_elem in Hk. congruence.
  - apply NoDup_singleton.
Qed.

Lemma reachable_keys_unique (db : t) : reachable db -> NoDup (map keyOf db).
Proof.
  induction 1 as [|db r _ IH]; [apply NoDup_nil_2|].
  apply createInsight_keeps_keys_unique, IH.
Qed.

Lemma rowsFor_length (db : t) (k : key) :
  NoDup (map keyOf db) ->
  length (rowsFor db k) = if has_key db k then 1%nat else 0%nat.
Proof.
  unfold rowsFor. induction db as [|r db IH]; intros Hnd; [reflexivity|].
  cbn [map] in Hnd. apply NoDup_cons in Hnd as [Hfresh Hnd].
  rewrite filter_cons. unfold has_key. cbn [existsb]. fold (has_key db k).
  destruct (decide (key_eqb (keyOf r) k = true)) as [Heq|Hne].
  - rewrite Heq. cbn [orb length]. rewrite (IH Hnd).
    apply key_eqb_eq in Heq. subst k.
    destruct (has_key db (keyOf r)) eqn:Hk; [|reflexivity].
    apply has_key_elem in Hk. contradiction.
  - destruct (key_eqb (keyOf r) k); [congruence|]. cbn [orb]. apply IH, Hnd.
Qed.

End StoreFacts.

(** ** Generating an insight twice *)

Lemma buildInsight_key (tz now : Z) (uid : string) (stats : WeeklyStats)
      (r : MoodInsightData) :
  buildInsight tz now uid stats = JS.Normal r ->
  InsightStore.keyOf r = (uid, Date.toISODate (getCurrentWeekStart tz now)).
Proof.
  unfold buildInsight, mbind, completion_bind, mret, completion_ret. cbv zeta.
  destruct (dominantMoodOf (moodDistribution stats)) as [dominant|]; cbn [JS.bind];
    [|discriminate].
  destruct (generateMockAIInsights (Some stats) dominant) as [text|]; cbn [JS.bind];
    [|discriminate].
  intros H. inversion H. reflexivity.
Qed.

(** What a call of [generateAIInsight] does to the store: nothing, or one
    create of the record it built. *)
Lemma generateAIInsight_store (tz now : Z) (c : Component) (db : InsightStore.t) :
  (generateAIInsight tz now c db).2 = db \/
  exists stats r,
    weeklyStats c = Some stats /\ totalMoods stats <> 0 /\
    buildInsight tz now (currentUserId c) stats = JS.Normal r /\
    (generateAIInsight tz now c db).2 = (InsightStore.createInsight db r).1.
Proof.
  unfold generateAIInsight.
  destruct (weeklyStats c) as [stats|] eqn:Hstats; [|left; reflexivity].
  destruct (Z.eqb_spec (totalMoods stats) 0) as [|Hne]; [left; reflexivity|].
  cbn [currentUserId setIsGenerating].
  destruct (buildInsight tz now (currentUserId c) stats) as [r|] eqn:Hbuild;
    [|left; reflexivity].
  right. exists stats, r. repeat (split; [auto; fail|]).
  destruct (InsightStore.createInsight db r) as [db' resp].
  destruct (InsightStore.data resp); reflexivity.
Qed.

Lemma generateAIInsight_reachable (tz now : Z) (c : Component) (db : InsightStore.t) :
  InsightStore.reachable db ->
  InsightStore.reachable (generateAIInsight tz now c db).2.
Proof.
  intros Hreach.
  destruct (generateAIInsight_store tz now c db) as [->|(stats & r & _ & _ & _ & ->)];
    [exact Hreach|].
  apply InsightStore.reachable_create, Hreach.
Qed.

Lemma generateAIInsight_creates (tz now : Z) (c : Component) (db : InsightStore.t)
      (stats : WeeklyStats) (r : MoodInsightData) :
  weeklyStats c = Some stats ->
  totalMoods stats <> 0 ->
  buildInsight tz now (currentUserId c) stats = JS.Normal r ->
  (generateAIInsight tz now c db).2 = (InsightStore.createInsight db r).1.
Proof.
  intros Hstats Hne Hbuild. unfold generateAIInsight. rewrite Hstats.
  destruct (Z.eqb_spec (totalMoods stats) 0); [contradiction|].
  cbn [currentUserId setIsGenerating]. rewrite Hbuild.
  destruct (InsightStore.createInsight db r) as [db' resp].
  destruct (InsightStore.data resp); reflexivity.
Qed.

(** C3. Against the store's insert-if-absent create: in every reachable
    state each pair of user and week start identifies at most one row; a
    create for a pair already present answers with no data and the
    duplicate-key failure and leaves the table as it was; and after two calls
    of [generateAIInsight] for the same user and week, the first of which got
    as far as creating its record, the second has changed nothing and the
    table holds exactly one row for that user and week. *)
Theorem one_insight_per_user_and_week :
  (forall db k,
      InsightStore.reachable db ->
      NoDup (map InsightStore.keyOf db) /\
      (length (InsightStore.rowsFor db k) <= 1)%nat) /\
  (forall db r,
      InsightStore.has_key db (InsightStore.keyOf r) = true ->
      InsightStore.createInsight db r
      = (db, InsightStore.mkResponse None [InsightStore.DuplicateKey])) /\
  (forall tz now now' c c' db stats r,
      InsightStore.reachable db ->
      weeklyStats c = Some stats ->
      totalMoods stats <> 0 ->
      buildInsight tz now (currentUserId c) stats = JS.Normal r ->
      currentUserId c' = currentUserId c ->
      Date.toISODate (getCurrentWeekStart tz now')
      = Date.toISODate (getCurrentWeekStart tz now) ->
      let db1 := (generateAIInsight tz now c db).2 in
      let db2 := (generateAIInsight tz now' c' db1).2 in
      db2 = db1 /\
      InsightStore.reachable db2 /\
      length (InsightStore.rowsFor db2 (InsightStore.keyOf r)) = 1%nat).
Proof.
  split; [|split].
  - intros db k Hreach.
    pose proof (StoreFacts.reachable_keys_unique db Hreach) as Hnd.
    split; [exact Hnd|].
    rewrite (StoreFacts.rowsFor_length db k Hnd).
    destruct (InsightStore.has_key db k); lia.
  - exact StoreFacts.createInsight_duplicate.
  - intros tz now now' c c' db stats r Hreach Hstats Hne Hbuild Huser Hweek. cbv zeta.
    pose proof (buildInsight_key _ _ _ _ _ Hbuild) as Hkey.
    rewrite (generateAIInsight_creates tz now c db stats r Hstats Hne Hbuild).
    set (db1 := (InsightStore.createInsight db r).1).
    assert (Hreach1 : InsightStore.reachable db1)
      by (apply InsightStore.reachable_create, Hreach).
    assert (Hhas : InsightStore.has_key db1 (InsightStore.keyOf r) = true)
      by apply StoreFacts.createInsight_has_key.
    assert (Hsame : (generateAIInsight tz now' c' db1).2 = db1).
    { destruct (generateAIInsight_store tz now' c' db1)
        as [Hsame|(stats' & r' & _ & _ & Hbuild' & Hdb2)]; [exact Hsame|].
      rewrite Hdb2.
      apply buildInsight_key in Hbuild'.
      rewrite StoreFacts.createInsight_duplicate; [reflexivity|].
      rewrite Hbuild', Huser, Hweek, <- Hkey. exact Hhas. }
    rewrite Hsame. split; [reflexivity|]. split; [exact Hreach1|].
    rewrite (StoreFacts.rowsFor_length db1 _
               (StoreFacts.reachable_keys_unique db1 Hreach1)), Hhas.
    reflexivity.
Qed.

Lemma one_insight_per_user_and_week_witness :
  let c := freshComponent (generateWeeklyStats scenario1) in
  let db1 := (generateAIInsight 0 mondayNoon c []).2 in
  let db2 := (generateAIInsight 0 tuesdayNoon c db1).2 in
  InsightStore.reachable [] /\
  totalMoods (generateWeeklyStats scenario1) <> 0 /\
  JS.is_normal (buildInsight 0 mondayNoon "u" (generateWeeklyStats scenario1)) = true /\
  Date.toISODate (getCurrentWeekStart 0 tuesdayNoon)
  = Date.toISODate (getCurrentWeekStart 0 mondayNoon) /\
  db2 = db1 /\
  length db2 = 1%nat /\
  length (InsightStore.rowsFor db2 ("u"%string, "2026-11-02"%string)) = 1%nat.
Proof.
  cbv zeta.
  split; [apply InsightStore.reachable_empty|].
  split; [discriminate|].
  split; [reflexivity|].
  split; [reflexivity|].
  destruct (buildInsight 0 mondayNoon "u" (generateWeeklyStats scenario1))
    as [r|] eqn:Hbuild; [|vm_compute in Hbuild; discriminate Hbuild].
  destruct (proj2 (proj2 one_insight_per_user_and_week)
              0 mondayNoon tuesdayNoon
              (freshComponent (generateWeeklyStats scenario1))
              (freshComponent (generateWeeklyStats scenario1))
              [] (generateWeeklyStats scenario1) r
              InsightStore.reachable_empty eq_refl
              ltac:(discriminate) Hbuild eq_refl eq_refl)
    as (Hsame & _ & Hone).
  split; [exact Hsame|]. split; [reflexivity|].
  rewrite (buildInsight_key _ _ _ _ _ Hbuild) in Hone. exact Hone.
Defined.

(** * Further properties of the insight component *)

(** ** Week boundaries *)

Lemma getCurrentWeekStart_fixed_point (tz t : Z) :
  Date.getDay tz t = 1 ->
  Date.localMs tz t mod Date.msPerDay = 0 ->
  getCurrentWeekStart tz t = t.
Proof.
  intros Hday Hmid. unfold getCurrentWeekStart. cbv zeta. rewrite Hday.
  unfold Date.addDays, Date.setHours0, Date.localMs, Date.msPerDay in *.
  Z.div_mod_to_equations. lia.
Qed.


(** X2. From Monday to Saturday the week start is the Monday of the ISO week of
    the current local date, it is not after the current instant, the current
    instant is before the week end, and the current UTC date lies between
    the UTC dates of the week start and the week end. *)
Theorem week_start_on_a_weekday_contains_now (tz now : Z) :
  Date.getDay tz now <> 0 ->
  let w := getCurrentWeekStart tz now in
  Date.localDay tz w = Date.isoMonday (Date.localDay tz now) /\
  w <= now < weekEndOf w /\
  w / Date.msPerDay <= now / Date.msPerDay <= weekEndOf w / Date.msPerDay.
Proof.
  intros Hday. cbv zeta.
  pose proof (getCurrentWeekStart_weekday tz now Hday) as Hmonday.
  pose proof (getCurrentWeekStart_day tz now) as Hw.
  destruct (getCurrentWeekStart_is_a_monday tz now) as [_ Hmid].
  pose proof (getDay_range tz now) as Hrange.
  split; [exact Hmonday|].
  assert (Hin : getCurrentWeekStart tz now <= now
                < weekEndOf (getCurrentWeekStart tz now)).
  { unfold weekEndOf, Date.addDays.
    unfold Date.localDay, Date.localMs, Date.msPerDay in *.
    Z.div_mod_to_equations. lia. }
  split; [exact Hin|].
  unfold Date.msPerDay. Z.div_mod_to_equations. lia.
Qed.

Lemma week_start_on_a_weekday_contains_now_witness :
  Date.getDay 60 tuesdayNoon <> 0 /\
  getCurrentWeekStart 60 tuesdayNoon <= tuesdayNoon
  < weekEndOf (getCurrentWeekStart 60 tuesdayNoon).
Proof.
  assert (H : Date.getDay 60 tuesdayNoon <> 0) by (vm_compute; discriminate).
  split; [exact H|].
  exact (proj1 (proj2 (week_start_on_a_weekday_contains_now 60 tuesdayNoon H))).
Defined.

Lemma buildInsight_dates (tz now : Z) (uid : string) (stats : WeeklyStats)
      (r : MoodInsightData) :
  buildInsight tz now uid stats = JS.Normal r ->
  weekStartDate r = Date.toISODate (getCurrentWeekStart tz now) /\
  weekEndDate r = Date.toISODate (weekEndOf (getCurrentWeekStart tz now)).
Proof.
  unfold buildInsight, mbind, completion_bind, mret, completion_ret. cbv zeta.
  destruct (dominantMoodOf (moodDistribution stats)) as [dominant|]; cbn [JS.bind];
    [|discriminate].
  destruct (generateMockAIInsights (Some stats) dominant) as [text|]; cbn [JS.bind];
    [|discriminate].
  intros H. inversion H. split; reflexivity.
Qed.



(** ** Statistics of a week *)

Lemma sumIntensity_Permutation (l1 l2 : list Mood) :
  l1 ≡ₚ l2 -> sumIntensity l1 = sumIntensity l2.
Proof.
  induction 1 as [|x l l' _ IH|x y l|l l' l'' _ IH1 _ IH2].
  - reflexivity.
  - rewrite !sumIntensity_cons, IH. reflexivity.
  - rewrite !sumIntensity_cons. lia.
  - congruence.
Qed.

Lemma uniqueDays_Permutation (l1 l2 : list Mood) :
  l1 ≡ₚ l2 -> uniqueDays l1 = uniqueDays l2.
Proof.
  intros Hperm. unfold uniqueDays. apply set_eq. intros d.
  rewrite !elem_of_list_to_set, !list_elem_of_In.
  split; apply Permutation_in, Permutation_map; [exact Hperm | symmetry; exact Hperm].
Qed.

Lemma distributionOf_get_key (moods : list Mood) (k : string) :
  JS.get (distributionOf moods) k =
  let n := Z.of_nat (length (filter (fun e => moodKey (moodType e) = k) moods)) in
  if n =? 0 then None else Some n.
Proof.
  unfold distributionOf. rewrite fold_countMood_get. cbv zeta. cbn [JS.get default].
  destruct (_ =? 0); [reflexivity|]. f_equal.
Qed.

(** X4. The order of the entries does not matter to the entry count, the
    average intensity, the streak, or the count recorded for any mood type
    (it matters only to the order of the distribution's keys). *)
Theorem weekly_stats_ignore_entry_order (moods moods' : list Mood) :
  moods ≡ₚ moods' ->
  let stats := generateWeeklyStats moods in
  let stats' := generateWeeklyStats moods' in
  totalMoods stats = totalMoods stats' /\
  averageIntensity stats = averageIntensity stats' /\
  moodStreak stats = moodStreak stats' /\
  (forall k, JS.get (moodDistribution stats) k = JS.get (moodDistribution stats') k).
Proof.
  intros Hperm. cbv zeta.
  cbn [generateWeeklyStats totalMoods averageIntensity moodStreak moodDistribution].
  rewrite (Permutation_length Hperm), (sumIntensity_Permutation _ _ Hperm).
  unfold calculateMoodStreak. rewrite (uniqueDays_Permutation _ _ Hperm).
  repeat (split; [reflexivity|]).
  intros k. rewrite !distributionOf_get_key. cbv zeta.
  rewrite (Permutation_length (filter_Permutation _ _ _ Hperm)). reflexivity.
Qed.

Lemma weekly_stats_ignore_entry_order_witness :
  scenario1 ≡ₚ rev scenario1 /\
  moodStreak (generateWeeklyStats scenario1)
  = moodStreak (generateWeeklyStats (rev scenario1)).
Proof.
  assert (H : scenario1 ≡ₚ rev scenario1) by (symmetry; apply Permutation_rev).
  split; [exact H|].
  exact (proj1 (proj2 (proj2 (weekly_stats_ignore_entry_order _ _ H)))).
Defined.

Lemma size_list_to_set_le (l : list string) :
  (size (list_to_set l : gset string) <= length l)%nat.
Proof.
  induction l as [|x l IH]; cbn [list_to_set length].
  - rewrite size_empty. lia.
  - rewrite size_union_alt, size_singleton.
    assert (Hle : (size ((list_to_set l : gset string) ∖ {[x]}) <= size (list_to_set l : gset string))%nat).
    { apply subseteq_size, subseteq_difference_l. reflexivity. }
    lia.
Qed.

Lemma size_list_to_set_eq (l : list string) :
  size (list_to_set l : gset string) = length l <-> NoDup l.
Proof.
  split; [|apply size_list_to_set].
  induction l as [|x l IH]; cbn [list_to_set length]; intros Hsize.
  - apply NoDup_nil_2.
  - pose proof (size_list_to_set_le l) as Hle.
    destruct (decide (x ∈ l)) as [Hin|Hnotin].
    + exfalso.
      assert (Heq : ({[x]} ∪ list_to_set l : gset string) = list_to_set l).
      { apply set_eq. intros y. rewrite elem_of_union, elem_of_singleton, !elem_of_list_to_set.
        split; [intros [->|H]; assumption | auto]. }
      rewrite Heq in Hsize. lia.
    + apply NoDup_cons. split; [exact Hnotin|]. apply IH.
      rewrite size_union in Hsize.
      * rewrite size_singleton in Hsize. lia.
      * intros y Hy1 Hy2. apply elem_of_singleton in Hy1. subst y.
        apply elem_of_list_to_set in Hy2. contradiction.
Qed.

(** X5. The streak is the number of distinct date strings: it never exceeds the
    number of entries, is 0 only for an empty week, and equals the number of
    entries exactly when no two entries share a date. *)
Theorem mood_streak_counts_distinct_dates (moods : list Mood) :
  let stats := generateWeeklyStats moods in
  0 <= moodStreak stats <= totalMoods stats /\
  (moodStreak stats = 0 <-> totalMoods stats = 0) /\
  (moodStreak stats = totalMoods stats <-> NoDup (map date moods)).
Proof.
  cbv zeta. cbn [generateWeeklyStats totalMoods moodStreak].
  unfold calculateMoodStreak, uniqueDays.
  pose proof (size_list_to_set_le (map date moods)) as Hle.
  rewrite length_map in Hle.
  split; [lia|]. split.
  - split; intros H.
    + assert (Hempty : (list_to_set (map date moods) : gset string) = ∅).
      { apply leibniz_equiv, size_empty_iff. lia. }
      destruct moods as [|m rest]; [reflexivity|].
      exfalso. cbn [map list_to_set] in Hempty.
      assert (Hin : date m ∈ (∅ : gset string)).
      { rewrite <- Hempty. apply elem_of_union_l, elem_of_singleton. reflexivity. }
      exact (not_elem_of_empty _ Hin).
    + destruct moods; [reflexivity|discriminate H].
  - rewrite <- size_list_to_set_eq, length_map. lia.
Qed.

(** ** The dominant mood of a week *)

Lemma In_get {V} (o : JS.object V) (k : string) (v : V) :
  NoDup (JS.Object_keys o) -> In (k, v) o -> JS.get o k = Some v.
Proof.
  unfold JS.Object_keys.
  induction o as [|[k0 v0] rest IH]; cbn [map fst In JS.get]; intros Hnd Hin; [contradiction|].
  apply NoDup_cons in Hnd as [Hfresh Hnd].
  destruct Hin as [Heq|Hin].
  - inversion Heq; subst. rewrite String.eqb_refl. reflexivity.
  - destruct (String.eqb_spec k k0) as [->|_]; [|apply IH; assumption].
    exfalso. apply Hfresh, list_elem_of_In, in_map_iff. exists (k0, v). auto.
Qed.

Lemma occurrences_nonneg (m : MoodType) (moods : list Mood) : 0 <= occurrences m moods.
Proof. unfold occurrences. lia. Qed.

Lemma distributionOf_In (moods : list Mood) (k : string) (c : Z) :
  In (k, c) (distributionOf moods) ->
  exists m, k = moodKey m /\ c = occurrences m moods /\ 1 <= c.
Proof.
  intros Hin. destruct (distributionOf_wellFormed moods) as [Hnd Hall].
  rewrite Forall_forall in Hall.
  destruct (Hall _ (proj2 (list_elem_of_In _ _) Hin)) as [Hkey Hpos]. cbn [fst snd] in *.
  apply in_map_iff in Hkey as (m & <- & _). exists m.
  pose proof (In_get _ _ _ Hnd Hin) as Hget. rewrite distributionOf_get in Hget.
  destruct (occurrences m moods =? 0); [discriminate|]. injection Hget as Hc.
  split; [reflexivity|]. split; [symmetry; exact Hc | exact Hpos].
Qed.

Lemma dominantMoodOf_generated (moods : list Mood) :
  moods <> [] ->
  exists m,
    dominantMoodOf (distributionOf moods) = JS.Normal (moodKey m) /\
    1 <= occurrences m moods /\
    forall m', occurrences m' moods <= occurrences m moods.
Proof.
  intros Hne.
  destruct (distributionOf moods) as [|first rest] eqn:Hdist.
  { exfalso. pose proof (fold_countMood_sum moods []) as Hsum.
    fold (distributionOf moods) in Hsum. rewrite Hdist in Hsum.
    destruct moods; [congruence|]. cbn in Hsum. lia. }
  destruct (reduce_keeps_last_maximum rest first) as (before & after & Hsplit & Hb & Ha).
  set (best := fold_left largerEntry rest first) in *.
  assert (Hbest : In best (distributionOf moods)).
  { rewrite Hdist, Hsplit. apply in_or_app. right. left. reflexivity. }
  destruct best as [k c] eqn:Ebest.
  destruct (distributionOf_In moods k c Hbest) as (m & -> & -> & Hpos).
  exists m. split; [|split; [exact Hpos|]].
  - unfold dominantMoodOf, dominantMoodEntry, JS.Object_entries, JS.reduce1.
    fold best. rewrite Ebest. reflexivity.
  - intros m'. pose proof (distributionOf_get moods m') as Hget.
    destruct (Z.eqb_spec (occurrences m' moods) 0) as [->|_]; [lia|].
    apply get_Some_In in Hget. rewrite Hdist, Hsplit in Hget.
    rewrite Forall_forall in Hb, Ha. cbn [snd] in Hb, Ha.
    apply in_app_or in Hget as [Hin|[Heq|Hin]].
    + apply list_elem_of_In, Hb in Hin. exact Hin.
    + inversion Heq. lia.
    + apply list_elem_of_In, Ha in Hin. cbn [snd] in Hin. lia.
Qed.

(** X6. For a week with at least one entry the dominant mood is a mood type
    that was logged, and no mood type was logged more often. *)
Theorem dominant_mood_is_most_frequent (moods : list Mood) :
  moods <> [] ->
  exists m,
    dominantMoodOf (moodDistribution (generateWeeklyStats moods))
    = JS.Normal (moodKey m) /\
    1 <= occurrences m moods /\
    forall m', occurrences m' moods <= occurrences m moods.
Proof. exact (dominantMoodOf_generated moods). Qed.

Lemma dominant_mood_is_most_frequent_witness :
  scenario1 <> [] /\
  exists m,
    dominantMoodOf (moodDistribution (generateWeeklyStats scenario1))
    = JS.Normal (moodKey m) /\
    1 <= occurrences m scenario1 /\
    forall m', occurrences m' scenario1 <= occurrences m scenario1.
Proof.
  assert (H : scenario1 <> []) by discriminate.
  split; [exact H|]. exact (dominant_mood_is_most_frequent scenario1 H).
Defined.


(** ** Score and trend *)

Lemma adjustment_ranges (avg : Q) (n d : Z) :
  -2 <= Spec.intensityAdjustment avg <= 2 /\
  -1 <= Spec.diversityAdjustment n <= 1 /\
  -1 <= Spec.consistencyAdjustment d <= 1.
Proof.
  unfold Spec.intensityAdjustment, Spec.diversityAdjustment, Spec.consistencyAdjustment.
  repeat match goal with
    | |- context [if ?c then _ else _] => destruct c
    end; lia.
Qed.

Lemma calculateWeeklyScore_unclamped (stats : WeeklyStats) :
  calculateWeeklyScore (Some stats)
  = 5 + Spec.intensityAdjustment (averageIntensity stats)
      + Spec.diversityAdjustment (Z.of_nat (length (JS.Object_keys (moodDistribution stats))))
      + Spec.consistencyAdjustment (moodStreak stats) /\
  1 <= calculateWeeklyScore (Some stats) <= 9.
Proof.
  rewrite calculateWeeklyScore_spec. unfold Spec.computeWeeklyScore, Spec.clamp.
  unfold JS.Object_keys. rewrite length_map.
  pose proof (adjustment_ranges (averageIntensity stats)
                (Z.of_nat (length (moodDistribution stats))) (moodStreak stats))
    as (Hi & Hd & Hc).
  match goal with |- context [if ?x <? 1 then _ else _] => set (score := x) in * end.
  destruct (Z.ltb_spec score 1); [lia|]. destruct (Z.ltb_spec 10 score); lia.
Qed.

(** X8. The clamp of [calculateWeeklyScore] never changes anything: the three
    adjustments move the base 5 by at most 4, so the score is their plain sum,
    it is never below 1, and it never reaches 10. *)
Theorem weekly_score_never_reaches_ten (stats : WeeklyStats) :
  calculateWeeklyScore (Some stats)
  = 5 + Spec.intensityAdjustment (averageIntensity stats)
      + Spec.diversityAdjustment (Z.of_nat (length (JS.Object_keys (moodDistribution stats))))
      + Spec.consistencyAdjustment (moodStreak stats) /\
  1 <= calculateWeeklyScore (Some stats) <= 9.
Proof. exact (calculateWeeklyScore_unclamped stats). Qed.

Lemma getOverallTrend_cases (stats : WeeklyStats) :
  (getOverallTrend (Some stats) = "positive"%string /\
   Qle_bool 7 (averageIntensity stats) = true) \/
  (getOverallTrend (Some stats) = "challenging"%string /\
   Qle_bool 7 (averageIntensity stats) = false /\
   Qle_bool (averageIntensity stats) 4 = true) \/
  (getOverallTrend (Some stats) = "stable"%string /\
   Qle_bool 7 (averageIntensity stats) = false /\
   Qle_bool (averageIntensity stats) 4 = false).
Proof.
  unfold getOverallTrend.
  destruct (Qle_bool 7 (averageIntensity stats)); [auto|].
  destruct (Qle_bool (averageIntensity stats) 4); auto.
Qed.

(** X9. The trend label and the score are computed from different thresholds
    but never contradict each other: a positive trend (average 7 or more)
    scores at least 5, a challenging trend (average 4 or less) scores at most
    7, the top score 9 occurs only with a positive trend, and a score of 2 or
    less occurs only with a challenging one. *)
Theorem trend_and_score_agree (stats : WeeklyStats) :
  let trend := getOverallTrend (Some stats) in
  let score := calculateWeeklyScore (Some stats) in
  In trend ["positive"; "stable"; "challenging"]%string /\
  (trend = "positive"%string <-> (7 <= averageIntensity stats)%Q) /\
  (trend = "challenging"%string <-> (averageIntensity stats <= 4)%Q) /\
  (trend = "positive"%string -> 5 <= score) /\
  (trend = "challenging"%string -> score <= 7) /\
  (score = 9 -> trend = "positive"%string) /\
  (score <= 2 -> trend = "challenging"%string).
Proof.
  cbv zeta.
  destruct (calculateWeeklyScore_unclamped stats) as [-> _].
  pose proof (adjustment_ranges (averageIntensity stats)
                (Z.of_nat (length (JS.Object_keys (moodDistribution stats))))
                (moodStreak stats)) as (_ & Hd & Hc).
  unfold Spec.intensityAdjustment.
  destruct (getOverallTrend_cases stats) as [[-> H7]|[(-> & H7 & H4)|(-> & H7 & H4)]];
    rewrite H7.
  - apply Qle_bool_iff in H7.
    repeat split; intros; try discriminate; try lia; try assumption; cbn; auto.
    lra.
  - assert (H7' : ~ (7 <= averageIntensity stats)%Q)
      by (rewrite <- Qle_bool_iff; congruence).
    apply Qle_bool_iff in H4.
    assert (H5 : Qle_bool 5 (averageIntensity stats) = false).
    { destruct (Qle_bool 5 (averageIntensity stats)) eqn:E; [|reflexivity].
      apply Qle_bool_iff in E. lra. }
    rewrite H5.
    repeat split; intros; try discriminate; try contradiction; try assumption;
      try reflexivity; cbn; auto;
      destruct (Qle_bool (averageIntensity stats) 3); lia.
  - assert (H7' : ~ (7 <= averageIntensity stats)%Q)
      by (rewrite <- Qle_bool_iff; congruence).
    assert (H4' : ~ (averageIntensity stats <= 4)%Q)
      by (rewrite <- Qle_bool_iff; congruence).
    assert (H3 : Qle_bool (averageIntensity stats) 3 = false).
    { destruct (Qle_bool (averageIntensity stats) 3) eqn:E; [|reflexivity].
      apply Qle_bool_iff in E. lra. }
    rewrite H3.
    repeat split; intros; try discriminate; try contradiction; cbn; auto;
      destruct (Qle_bool 5 (averageIntensity stats)); lia.
Qed.

(** ** Insight text *)

Lemma MOOD_TYPES_get (m : MoodType) : JS.get MOOD_TYPES (moodKey m) = Some (moodLabel m).
Proof. destruct m; reflexivity. Qed.

(** X10. For given statistics the insight text is produced exactly for the five
    mood type names; for any other dominant mood the lookup of its label
    throws. *)
Theorem insight_text_needs_a_known_mood (stats : WeeklyStats) (dominantMood : string) :
  JS.is_normal (generateMockAIInsights (Some stats) dominantMood) = true
  <-> In dominantMood (map moodKey allMoodTypes).
Proof.
  unfold generateMockAIInsights. split.
  - destruct (JS.get MOOD_TYPES dominantMood) as [label|] eqn:Hget; [|discriminate].
    intros _. apply get_Some_In in Hget. unfold MOOD_TYPES in Hget.
    apply in_map_iff in Hget as (m & Heq & _). inversion Heq.
    apply in_map. destruct m; cbn; tauto.
  - intros Hin. apply in_map_iff in Hin as (m & <- & _).
    rewrite MOOD_TYPES_get. destruct (_ <? _)%nat; reflexivity.
Qed.
(** ** The insight built from a week *)

Lemma distribution_keys_count (moods : list Mood) :
  (length (JS.Object_keys (distributionOf moods)) <= 5)%nat /\
  (length (JS.Object_keys (distributionOf moods)) <= length moods)%nat /\
  (moods <> [] -> (1 <= length (JS.Object_keys (distributionOf moods)))%nat).
Proof.
  destruct (distributionOf_wellFormed moods) as [Hnd Hall].
  split; [|split].
  - change 5%nat with (length (map moodKey allMoodTypes)).
    apply submseteq_length, NoDup_submseteq; [exact Hnd|].
    intros k Hk. unfold JS.Object_keys in Hk.
    apply list_elem_of_In, in_map_iff in Hk as ([k' c] & <- & Hin).
    rewrite Forall_forall in Hall. apply list_elem_of_In.
    exact (proj1 (Hall _ (proj2 (list_elem_of_In _ _) Hin))).
  - pose proof (fold_countMood_sum moods []) as Hsum.
    fold (distributionOf moods) in Hsum. cbn [sumCounts fold_right] in Hsum.
    unfold JS.Object_keys. rewrite length_map.
    assert (Hge : Z.of_nat (length (distributionOf moods)) <= sumCounts (distributionOf moods)).
    { clear Hsum Hnd. induction Hall as [|[k c] rest [_ Hc] _ IH]; cbn [length sumCounts fold_right snd] in *.
      - lia.
      - fold (sumCounts rest). lia. }
    lia.
  - intros Hne. destruct (dominantMoodOf_generated moods Hne) as (m & Hdom & _).
    destruct (distributionOf moods); [discriminate Hdom|]. cbn. lia.
Qed.

Lemma generateMockAIInsights_known (stats : WeeklyStats) (m : MoodType) :
  JS.is_normal (generateMockAIInsights (Some stats) (moodKey m)) = true.
Proof.
  unfold generateMockAIInsights. rewrite MOOD_TYPES_get.
  destruct (_ <? _)%nat; reflexivity.
Qed.

(** X7. Statistics computed from at least one entry always yield an insight
    record: neither the dominant-mood selection nor the text generation
    throws.  The record carries the given user, a dominant mood that was
    logged most often, a variability above 0 and at most 1, a score from 1 to
    9, and a non-empty recommendation. *)
Theorem generated_week_always_builds
  (tz now : Z) (uid : string) (moods : list Mood) :
  moods <> [] ->
  exists r m,
    buildInsight tz now uid (generateWeeklyStats moods) = JS.Normal r /\
    userId r = uid /\
    dominantMood r = moodKey m /\
    (forall m', occurrences m' moods <= occurrences m moods) /\
    (0 < moodVariability r <= 1)%Q /\
    1 <= weeklyScore r <= 9 /\
    recommendations r <> EmptyString.
Proof.
  intros Hne.
  destruct (dominantMoodOf_generated moods Hne) as (m & Hdom & _ & Hmax).
  unfold buildInsight, mbind, completion_bind, mret, completion_ret. cbv zeta.
  change (moodDistribution (generateWeeklyStats moods)) with (distributionOf moods).
  rewrite Hdom. cbn [JS.bind].
  pose proof (generateMockAIInsights_known (generateWeeklyStats moods) m) as Htext.
  destruct (generateMockAIInsights (Some (generateWeeklyStats moods)) (moodKey m))
    as [text|]; [|discriminate Htext]. cbn [JS.bind].
  eexists. exists m. split; [reflexivity|].
  cbn [userId dominantMood moodVariability weeklyScore recommendations].
  split; [reflexivity|]. split; [reflexivity|]. split; [exact Hmax|].
  destruct (distribution_keys_count moods) as (H5 & _ & H1). specialize (H1 Hne).
  split; [|split].
  - set (n := length (JS.Object_keys (distributionOf moods))) in *.
    unfold Qdiv. change (/ 5)%Q with (1 # 5)%Q.
    assert (Hn : (1 <= inject_Z (Z.of_nat n) <= 5)%Q).
    { change 1%Q with (inject_Z 1). change 5%Q with (inject_Z 5).
      rewrite <- !Zle_Qle. lia. }
    split; lra.
  - apply calculateWeeklyScore_unclamped.
  - rewrite recommendations_assembled.
    pose proof (moodAdvice_cases (moodKey m)
                  (averageIntensity (generateWeeklyStats moods))) as Hcases.
    destruct (moodStreak (generateWeeklyStats moods) <? 3);
      cbn [In] in Hcases; repeat (destruct Hcases as [<-|Hcases]);
      try contradiction; discriminate.
Qed.

Lemma generated_week_always_builds_witness :
  scenario1 <> [] /\
  JS.is_normal (buildInsight 0 mondayNoon "u" (generateWeeklyStats scenario1)) = true.
Proof.
  assert (H : scenario1 <> []) by discriminate.
  split; [exact H|].
  destruct (generated_week_always_builds 0 mondayNoon "u" scenario1 H)
    as (r & m & Hbuild & _).
  rewrite Hbuild. reflexivity.
Defined.

(** ** What a generation does to the component and the store *)

Lemma generateAIInsight_cases (tz now : Z) (c : Component) (db : InsightStore.t) :
  (generateAIInsight tz now c db = (alert notEnoughData c, db) /\
   match weeklyStats c with Some stats => totalMoods stats = 0 | None => True end) \/
  (exists stats,
      weeklyStats c = Some stats /\ totalMoods stats <> 0 /\
      ((exists e, buildInsight tz now (currentUserId c) stats = JS.Throw e /\
                  generateAIInsight tz now c db
                  = (setIsGenerating false (alert generationFailed c), db)) \/
       (exists r, buildInsight tz now (currentUserId c) stats = JS.Normal r /\
                  InsightStore.has_key db (InsightStore.keyOf r) = true /\
                  generateAIInsight tz now c db = (setIsGenerating false c, db)) \/
       (exists r, buildInsight tz now (currentUserId c) stats = JS.Normal r /\
                  InsightStore.has_key db (InsightStore.keyOf r) = false /\
                  generateAIInsight tz now c db
                  = (setIsGenerating false (showInsight r c), db ++ [r])))).
Proof.
  unfold generateAIInsight.
  destruct (weeklyStats c) as [stats|] eqn:Hstats; [|left; auto].
  destruct (Z.eqb_spec (totalMoods stats) 0) as [Hzero|Hne]; [left; auto|].
  right. exists stats. split; [reflexivity|]. split; [exact Hne|].
  cbn [currentUserId setIsGenerating].
  destruct (buildInsight tz now (currentUserId c) stats) as [r|e].
  - right. unfold InsightStore.createInsight.
    destruct (InsightStore.has_key db (InsightStore.keyOf r)) eqn:Hkey.
    + left. exists r. auto.
    + right. exists r. auto.
  - left. exists e. auto.
Qed.

(** X11. A generation for a user and week that already have an insight in the
    store is rejected without any sign of it: the store and the displayed
    insights stay as they were and no alert is shown. *)
Theorem duplicate_insight_is_rejected_silently
  (tz now : Z) (c : Component) (db : InsightStore.t)
  (stats : WeeklyStats) (r : MoodInsightData) :
  weeklyStats c = Some stats ->
  totalMoods stats <> 0 ->
  buildInsight tz now (currentUserId c) stats = JS.Normal r ->
  InsightStore.has_key db
    (currentUserId c, Date.toISODate (getCurrentWeekStart tz now)) = true ->
  generateAIInsight tz now c db = (setIsGenerating false c, db) /\
  let c' := (generateAIInsight tz now c db).1 in
  alerts c' = alerts c /\
  insightList c' = insightList c /\
  currentWeekInsight c' = currentWeekInsight c.
Proof.
  intros Hstats Hne Hbuild Hkey.
  rewrite <- (buildInsight_key _ _ _ _ _ Hbuild) in Hkey.
  assert (H : generateAIInsight tz now c db = (setIsGenerating false c, db)).
  { unfold generateAIInsight. rewrite Hstats.
    destruct (Z.eqb_spec (totalMoods stats) 0); [contradiction|].
    cbn [currentUserId setIsGenerating]. rewrite Hbuild.
    rewrite (StoreFacts.createInsight_duplicate db r Hkey). reflexivity. }
  rewrite H. cbn. auto.
Qed.

Lemma duplicate_insight_is_rejected_silently_witness :
  let c := freshComponent (generateWeeklyStats scenario1) in
  let db := (generateAIInsight 0 mondayNoon c []).2 in
  InsightStore.has_key db ("u"%string, "2026-11-02"%string) = true /\
  generateAIInsight 0 tuesdayNoon c db = (setIsGenerating false c, db).
Proof.
  cbv zeta. split; [reflexivity|].
  destruct (buildInsight 0 tuesdayNoon "u" (generateWeeklyStats scenario1))
    as [r|] eqn:Hbuild; [|vm_compute in Hbuild; discriminate Hbuild].
  exact (proj1 (duplicate_insight_is_rejected_silently 0 tuesdayNoon
                  (freshComponent (generateWeeklyStats scenario1))
                  (generateAIInsight 0 mondayNoon
                     (freshComponent (generateWeeklyStats scenario1)) []).2
                  (generateWeeklyStats scenario1) r
                  eq_refl ltac:(discriminate) Hbuild eq_refl)).
Defined.

(** X12. A generation only ever appends: it leaves the statistics and the user
    untouched, ends with the generating flag off (or unchanged, when it stops
    at the guard with the "not enough data" alert), shows at most one alert,
    and either changes neither the store nor the displayed insights, or
    appends one row to the store, for the current user and week, and shows
    that same row first and as the insight of the current week. *)
Theorem insight_generation_only_appends
  (tz now : Z) (c : Component) (db : InsightStore.t) :
  let c' := (generateAIInsight tz now c db).1 in
  let db' := (generateAIInsight tz now c db).2 in
  weeklyStats c' = weeklyStats c /\
  currentUserId c' = currentUserId c /\
  (isGenerating c' = false \/
   (isGenerating c' = isGenerating c /\ alerts c' = alerts c ++ [notEnoughData])) /\
  (alerts c' = alerts c \/ exists msg, alerts c' = alerts c ++ [msg]) /\
  ((db' = db /\ insightList c' = insightList c /\
    currentWeekInsight c' = currentWeekInsight c) \/
   (exists r,
       db' = db ++ [r] /\
       InsightStore.keyOf r
       = (currentUserId c, Date.toISODate (getCurrentWeekStart tz now)) /\
       InsightStore.has_key db (InsightStore.keyOf r) = false /\
       insightList c' = r :: insightList c /\
       currentWeekInsight c' = Some r /\
       alerts c' = alerts c)).
Proof.
  cbv zeta.
  destruct (generateAIInsight_cases tz now c db)
    as [[-> Hguard]|(stats & Hstats & Hne &
         [(e & Hbuild & ->)|[(r & Hbuild & Hkey & ->)|(r & Hbuild & Hkey & ->)]])];
    cbn.
  - do 2 (split; [reflexivity|]). split; [right; auto|].
    split; [right; eexists; reflexivity|]. left. auto.
  - do 2 (split; [reflexivity|]). split; [left; reflexivity|].
    split; [right; eexists; reflexivity|]. left. auto.
  - do 2 (split; [reflexivity|]). split; [left; reflexivity|].
    split; [left; reflexivity|]. left. auto.
  - do 2 (split; [reflexivity|]). split; [left; reflexivity|].
    split; [left; reflexivity|]. right. exists r.
    split; [reflexivity|].
    split; [exact (buildInsight_key _ _ _ _ _ Hbuild)|].
    split; [exact Hkey|]. auto.
Qed.

(** X13. Whenever the button is enabled the handler gets past its guard: the
    "not enough data" alert cannot be reached from the page.  And once a
    generation has stored a row, the button is gone. *)
Theorem generate_button_guards_the_handler
  (tz now : Z) (c : Component) (db : InsightStore.t) :
  generateButtonEnabled c = true ->
  let c' := (generateAIInsight tz now c db).1 in
  let db' := (generateAIInsight tz now c db).2 in
  (alerts c' = alerts c \/ alerts c' = alerts c ++ [generationFailed]) /\
  (db' <> db -> generateButtonEnabled c' = false).
Proof.
  intros Hbutton. cbv zeta.
  unfold generateButtonEnabled in Hbutton.
  destruct (generateAIInsight_cases tz now c db)
    as [[-> Hguard]|(stats & Hstats & Hne &
         [(e & Hbuild & ->)|[(r & Hbuild & Hkey & ->)|(r & Hbuild & Hkey & ->)]])];
    cbn [fst snd].
  - exfalso. destruct (weeklyStats c) as [stats|]; [|discriminate].
    rewrite Hguard in Hbutton. cbn in Hbutton.
    destruct (currentWeekInsight c); [discriminate|].
    rewrite orb_true_r in Hbutton. discriminate.
  - split; [right; reflexivity|]. intros H; contradiction.
  - split; [left; reflexivity|]. intros H; contradiction.
  - split; [left; reflexivity|]. intros _.
    unfold generateButtonEnabled. cbn. rewrite Hstats. reflexivity.
Qed.

Lemma generate_button_guards_the_handler_witness :
  let c := freshComponent (generateWeeklyStats scenario1) in
  generateButtonEnabled c = true /\
  generateButtonEnabled (generateAIInsight 0 mondayNoon c []).1 = false.
Proof.
  cbv zeta. split; [reflexivity|].
  apply (proj2 (generate_button_guards_the_handler 0 mondayNoon
                  (freshComponent (generateWeeklyStats scenario1)) [] eq_refl)).
  vm_compute. discriminate.
Defined.

(** ** Loading the stored insights *)

Lemma insertBy_Permutation {A} (cmp : A -> A -> Z) (x : A) (l : list A) :
  JSArray.insertBy cmp x l ≡ₚ x :: l.
Proof.
  induction l as [|y rest IH]; cbn [JSArray.insertBy]; [reflexivity|].
  destruct (cmp x y <=? 0); [reflexivity|].
  rewrite IH. apply Permutation_swap.
Qed.

Lemma sort_Permutation {A} (cmp : A -> A -> Z) (l : list A) :
  JSArray.sort cmp l ≡ₚ l.
Proof.
  unfold JSArray.sort. induction l as [|x rest IH]; cbn [fold_right]; [reflexivity|].
  rewrite insertBy_Permutation, IH. reflexivity.
Qed.

Lemma notOlderThan_trans (a b c : MoodInsightData) :
  notOlderThan a b -> notOlderThan b c -> notOlderThan a c.
Proof.
  intros (ta & tb & Ha & Hb & Hab) (tb' & tc & Hb' & Hc & Hbc).
  exists ta, tc. rewrite Hb in Hb'. injection Hb' as <-.
  repeat split; [assumption..|lia].
Qed.

Lemma insertBy_newestFirst_sorted (x : MoodInsightData) (l : list MoodInsightData) :
  is_Some (DateString.getTime (weekStartDate x)) ->
  Forall (fun r => is_Some (DateString.getTime (weekStartDate r))) l ->
  StronglySorted notOlderThan l ->
  StronglySorted notOlderThan (JSArray.insertBy newestFirst x l).
Proof.
  intros [tx Hx] Hall Hsorted.
  induction l as [|y rest IH]; cbn [JSArray.insertBy].
  - apply StronglySorted_cons. split; [apply Forall_nil_2|constructor].
  - apply Forall_cons in Hall as [[ty Hy] Hall].
    apply StronglySorted_cons in Hsorted as [Hy_rest Hsorted].
    unfold newestFirst at 1. rewrite Hx, Hy.
    destruct (Z.leb_spec (ty - tx) 0) as [Hle|Hgt].
    + assert (Hxy : notOlderThan x y) by (exists tx, ty; repeat split; [assumption..|lia]).
      apply StronglySorted_cons. split.
      * apply Forall_cons. split; [exact Hxy|].
        eapply Forall_impl; [exact Hy_rest|].
        intros z Hz. eapply notOlderThan_trans; eassumption.
      * apply StronglySorted_cons. auto.
    + assert (Hyx : notOlderThan y x) by (exists ty, tx; repeat split; [assumption..|lia]).
      apply StronglySorted_cons. split; [|apply IH; assumption].
      rewrite insertBy_Permutation. apply Forall_cons. auto.
Qed.

Lemma sort_newestFirst_sorted (l : list MoodInsightData) :
  Forall (fun r => is_Some (DateString.getTime (weekStartDate r))) l ->
  StronglySorted notOlderThan (JSArray.sort newestFirst l).
Proof.
  unfold JSArray.sort. induction 1 as [|x rest Hx Hrest IH]; cbn [fold_right].
  - constructor.
  - apply insertBy_newestFirst_sorted; [exact Hx| |exact IH].
    fold (JSArray.sort newestFirst rest). rewrite sort_Permutation. exact Hrest.
Qed.

(** X14. After [loadInsights] the displayed list holds exactly the rows that
    were returned, newest week first (when every week start is a valid
    date), and the rest of the component is unchanged. *)
Theorem loaded_insights_are_newest_first
  (tz now : Z) (data : list MoodInsightData) (c : Component) :
  Forall (fun r => is_Some (DateString.getTime (weekStartDate r))) data ->
  let c' := loadInsights tz now data c in
  insightList c' ≡ₚ data /\
  StronglySorted notOlderThan (insightList c') /\
  weeklyStats c' = weeklyStats c /\
  currentUserId c' = currentUserId c /\
  alerts c' = alerts c.
Proof.
  intros Hvalid. cbv zeta. unfold loadInsights. cbn.
  split; [apply sort_Permutation|].
  split; [apply sort_newestFirst_sorted, Hvalid|]. auto.
Qed.

Lemma loaded_insights_are_newest_first_witness :
  let data := [insightOf "2026-10-19"; insightOf "2026-11-02"; insightOf "2026-10-26"] in
  Forall (fun r => is_Some (DateString.getTime (weekStartDate r))) data /\
  map weekStartDate (insightList (loadInsights 0 mondayNoon data (freshComponent emptyWeek)))
  = ["2026-11-02"; "2026-10-26"; "2026-10-19"]%string /\
  StronglySorted notOlderThan
    (insightList (loadInsights 0 mondayNoon data (freshComponent emptyWeek))).
Proof.
  cbv zeta.
  assert (H : Forall (fun r => is_Some (DateString.getTime (weekStartDate r)))
                [insightOf "2026-10-19"; insightOf "2026-11-02"; insightOf "2026-10-26"]).
  { repeat (apply Forall_cons; split; [eexists; vm_compute; reflexivity|]).
    apply Forall_nil_2. }
  split; [exact H|]. split; [reflexivity|].
  exact (proj1 (proj2 (loaded_insights_are_newest_first 0 mondayNoon _
                         (freshComponent emptyWeek) H))).
Defined.

Lemma NoDup_map_inj {A B} (f : A -> B) (l : list A) (a b : A) :
  NoDup (map f l) -> In a l -> In b l -> f a = f b -> a = b.
Proof.
  induction l as [|x rest IH]; cbn [map In]; intros Hnd Ha Hb Heq; [contradiction|].
  apply NoDup_cons in Hnd as [Hfresh Hnd].
  destruct Ha as [->|Ha], Hb as [->|Hb]; [reflexivity| | |auto].
  - exfalso. apply Hfresh. rewrite Heq. apply list_elem_of_In, in_map, Hb.
  - exfalso. apply Hfresh. rewrite <- Heq. apply list_elem_of_In, in_map, Ha.
Qed.

(** X15. When the returned rows have pairwise different week starts (as the
    rows of one user do), [loadInsights] shows as the insight of the current
    week exactly the returned row whose week start is the current week's
    date, and none when there is no such row. *)
Theorem current_week_insight_is_the_stored_one
  (tz now : Z) (data : list MoodInsightData) (c : Component) :
  NoDup (map weekStartDate data) ->
  let week := Date.toISODate (getCurrentWeekStart tz now) in
  let c' := loadInsights tz now data c in
  (forall r, currentWeekInsight c' = Some r <-> In r data /\ weekStartDate r = week) /\
  (currentWeekInsight c' = None <-> ~ In week (map weekStartDate data)).
Proof.
  intros Hnd. cbv zeta. unfold loadInsights, JSArray.find. cbn [currentWeekInsight].
  set (week := Date.toISODate (getCurrentWeekStart tz now)).
  set (sorted := JSArray.sort newestFirst data).
  assert (Hperm : sorted ≡ₚ data) by apply sort_Permutation.
  assert (Hfound : forall r, List.find (fun i => String.eqb (weekStartDate i) week) sorted = Some r
                             -> In r data /\ weekStartDate r = week).
  { intros r Hfind. apply find_some in Hfind as [Hin Heq].
    apply String.eqb_eq in Heq. split; [|exact Heq].
    eapply Permutation_in; [exact Hperm|exact Hin]. }
  split.
  - intros r. split; [apply Hfound|]. intros [Hin Hweek].
    destruct (List.find (fun i => String.eqb (weekStartDate i) week) sorted) as [r'|] eqn:Hfind.
    + destruct (Hfound r' eq_refl) as [Hin' Hweek'].
      f_equal. apply (NoDup_map_inj weekStartDate data); congruence.
    + exfalso. eapply find_none in Hfind.
      * rewrite Hweek, String.eqb_refl in Hfind. discriminate Hfind.
      * eapply Permutation_in; [symmetry; exact Hperm|exact Hin].
  - split.
    + intros Hnone Hin. apply in_map_iff in Hin as (r & Hweek & Hin).
      eapply find_none in Hnone.
      * rewrite Hweek, String.eqb_refl in Hnone. discriminate Hnone.
      * eapply Permutation_in; [symmetry; exact Hperm|exact Hin].
    + intros Hnotin.
      destruct (List.find (fun i => String.eqb (weekStartDate i) week) sorted) as [r'|] eqn:Hfind;
        [|reflexivity].
      exfalso. destruct (Hfound r' eq_refl) as [Hin' Hweek'].
      apply Hnotin. rewrite <- Hweek'. apply in_map, Hin'.
Qed.

Lemma current_week_insight_is_the_stored_one_witness :
  let data := [insightOf "2026-10-19"; insightOf "2026-11-02"; insightOf "2026-10-26"] in
  NoDup (map weekStartDate data) /\
  currentWeekInsight (loadInsights 0 mondayNoon data (freshComponent emptyWeek))
  = Some (insightOf "2026-11-02").
Proof.
  cbv zeta.
  assert (H : NoDup (map weekStartDate
                       [insightOf "2026-10-19"; insightOf "2026-11-02"; insightOf "2026-10-26"])).
  { cbn. repeat (apply NoDup_cons; split;
                 [rewrite list_elem_of_In; cbn; intuition discriminate|]).
    apply NoDup_nil_2. }
  split; [exact H|].
  apply (proj1 (current_week_insight_is_the_stored_one 0 mondayNoon _
                  (freshComponent emptyWeek) H)).
  split; [cbn; tauto | reflexivity].
Defined.

(** * Properties of the components that use the mood types *)

(** ** The note on a mood card *)

Lemma string_length_append (s1 s2 : string) :
  String.length (s1 ++ s2) = (String.length s1 + String.length s2)%nat.
Proof.
  induction s1 as [|c s1 IH]; [reflexivity|].
  cbn [String.length plus]. rewrite <- IH. reflexivity.
Qed.

Lemma substring_0_length (n : nat) (s : string) :
  String.length (substring 0 n s) = Nat.min n (String.length s).
Proof.
  revert s. induction n as [|n IH]; intros [|c s]; cbn; try reflexivity.
  rewrite IH. reflexivity.
Qed.

Lemma substring_0_append (n : nat) (s t : string) :
  (n <= String.length s)%nat ->
  substring 0 n (substring 0 n s ++ t) = substring 0 n s.
Proof.
  revert s. induction n as [|n IH]; intros [|c s] Hlen; cbn [String.length] in Hlen;
    try lia.
  - destruct t; reflexivity.
  - destruct t; reflexivity.
  - change (substring 0 (S n) (String c s)) with (String c (substring 0 n s)).
    change (String c (substring 0 n s) +:+ t) with (String c (substring 0 n s +:+ t)).
    change (substring 0 (S n) (String c (substring 0 n s +:+ t)))
      with (String c (substring 0 n (substring 0 n s +:+ t))).
    rewrite IH by lia. reflexivity.
Qed.

(** X16. An expanded note is shown whole.  A collapsed note is shown whole when
    it has at most [maxLength] characters; otherwise it is the first
    [maxLength] characters of the note followed by the three dots ["..."],
    which makes [maxLength + 3] characters (more than the note itself when it
    is only one or two characters over).  Either way the first [maxLength]
    characters are those of the note. *)
Theorem truncated_note_keeps_the_beginning
  (showFullNote : bool) (note : string) (maxLength : nat) :
  truncateNote true note maxLength = note /\
  truncateNote false note maxLength
  = (if (String.length note <=? maxLength)%nat
     then note else substring 0 maxLength note ++ "...")%string /\
  String.length (truncateNote false note maxLength)
  = (if (String.length note <=? maxLength)%nat
     then String.length note else maxLength + 3)%nat /\
  substring 0 maxLength (truncateNote showFullNote note maxLength)
  = substring 0 maxLength note.
Proof.
  unfold truncateNote.
  destruct (Nat.leb_spec (String.length note) maxLength) as [Hle|Hgt].
  - repeat split; reflexivity.
  - split; [reflexivity|]. split; [reflexivity|]. split.
    + cbv iota. rewrite string_length_append, substring_0_length. cbn. lia.
    + destruct showFullNote; [reflexivity|]. cbv iota.
      apply substring_0_append. lia.
Qed.

(** ** The colour submitted with a mood entry *)

(** X17. Whatever mood is selected, the [moodColor] that [handleSubmit] submits
    is the name of the mood itself, which is never one of the colour names
    the [Mood] model accepts. *)
Theorem submitted_mood_color_is_the_mood_name (selectedMood : MoodType) :
  submittedMoodColor selectedMood = Some (moodKey selectedMood) /\
  ~ In (moodKey selectedMood) moodColorEnum.
Proof.
  destruct selectedMood; (split; [reflexivity|]);
    cbn; intuition discriminate.
Qed.

(** ** The calendar header *)

Lemma fold_countEntry (tz cm cy : Z) (moods : list Mood)
      (inMonth totalIntensity : Z) (breakdown : JS.object Z) :
  exists k,
    0 <= k <= Z.of_nat (length moods) /\
    fold_left (countEntry tz cm cy) moods (inMonth, totalIntensity, breakdown)
    = (inMonth + k, totalIntensity + sumIntensity moods,
       fold_left countMood moods breakdown).
Proof.
  revert inMonth totalIntensity breakdown.
  induction moods as [|m rest IH]; intros inMonth totalIntensity breakdown.
  - exists 0. split; [cbn [length]; lia|].
    unfold sumIntensity. cbn [fold_left]. f_equal. f_equal; lia.
  - cbn [fold_left length]. unfold countEntry at 2.
    match goal with
    | |- context [fold_left _ rest (?a, ?b, ?d)] =>
        destruct (IH a b d) as (k & Hk & ->)
    end.
    rewrite sumIntensity_cons.
    destruct (match DateString.getTime (date m) with
              | Some moodDate => _
              | None => false
              end).
    + exists (1 + k). split; [lia|]. f_equal. f_equal; lia.
    + exists k. split; [lia|]. f_equal. f_equal; lia.
Qed.

(** X18. The calendar header and the insights page compute the same numbers
    from the same entries: the same total, the same rounded average
    intensity and the same counts per mood type; and the count for the
    current month is between 0 and the total. *)
Theorem calendar_stats_agree_with_weekly_stats (tz now : Z) (moods : list Mood) :
  let stats := getMoodStats tz now moods in
  let weekly := generateWeeklyStats moods in
  total stats = totalMoods weekly /\
  (calendarAverage stats == averageIntensity weekly)%Q /\
  moodBreakdown stats = moodDistribution weekly /\
  0 <= thisMonth stats <= total stats.
Proof.
  unfold getMoodStats. cbv zeta.
  destruct (fold_countEntry tz (getMonth tz now) (getFullYear tz now) moods 0 0 [])
    as (k & Hk & Hfold).
  destruct (fold_left _ moods _) as [[inMonth totalIntensity] breakdown] eqn:E.
  injection Hfold as -> -> ->.
  cbn [total calendarAverage moodBreakdown thisMonth
       generateWeeklyStats totalMoods averageIntensity moodDistribution].
  split; [reflexivity|]. split; [|split; [reflexivity|lia]].
  destruct (Z.ltb_spec 0 (Z.of_nat (length moods))) as [Hpos|Hzero].
  - rewrite Z.add_0_l. reflexivity.
  - destruct moods; [reflexivity|cbn in Hzero; lia].
Qed.

(** ** Tags of a mood entry *)

Lemma skipWhiteSpace_idem (cs : list ascii) :
  skipWhiteSpace (skipWhiteSpace cs) = skipWhiteSpace cs.
Proof.
  induction cs as [|c rest IH]; [reflexivity|].
  cbn [skipWhiteSpace]. destruct (isWhiteSpace c) eqn:Hc; [exact IH|].
  cbn [skipWhiteSpace]. rewrite Hc. reflexivity.
Qed.

Lemma skipWhiteSpace_snoc (cs : list ascii) (c : ascii) :
  isWhiteSpace c = false ->
  skipWhiteSpace (cs ++ [c]) = skipWhiteSpace cs ++ [c].
Proof.
  intros Hc. induction cs as [|d rest IH]; cbn [app skipWhiteSpace].
  - rewrite Hc. reflexivity.
  - destruct (isWhiteSpace d); [exact IH|reflexivity].
Qed.

Lemma skipWhiteSpace_head (cs : list ascii) :
  skipWhiteSpace cs = [] \/
  exists c rest, skipWhiteSpace cs = c :: rest /\ isWhiteSpace c = false.
Proof.
  induction cs as [|c rest IH]; [left; reflexivity|].
  cbn [skipWhiteSpace]. destruct (isWhiteSpace c) eqn:Hc; [exact IH|].
  right. exists c, rest. auto.
Qed.

(** Once leading white space is gone, dropping trailing white space leaves
    none at either end. *)
Lemma trimmed_front_stays (cs : list ascii) :
  skipWhiteSpace (rev (skipWhiteSpace (rev (skipWhiteSpace cs))))
  = rev (skipWhiteSpace (rev (skipWhiteSpace cs))).
Proof.
  destruct (skipWhiteSpace_head cs) as [->|(c & rest & -> & Hc)]; [reflexivity|].
  cbn [rev]. rewrite (skipWhiteSpace_snoc _ _ Hc), rev_app_distr.
  cbn [rev app skipWhiteSpace]. rewrite Hc. reflexivity.
Qed.

Lemma trim_idem (s : string) : trim (trim s) = trim s.
Proof.
  unfold trim. rewrite list_ascii_of_string_of_list_ascii.
  rewrite (trimmed_front_stays (list_ascii_of_string s)), rev_involutive,
    skipWhiteSpace_idem.
  reflexivity.
Qed.

Lemma includes_In (xs : list string) (x : string) :
  includes xs x = true <-> In x xs.
Proof.
  unfold includes. rewrite existsb_exists. split.
  - intros (y & Hin & Heq). apply String.eqb_eq in Heq. subst. exact Hin.
  - intros Hin. exists x. split; [exact Hin|apply String.eqb_refl].
Qed.

Lemma NoDup_List_filter {A} (p : A -> bool) (l : list A) :
  NoDup l -> NoDup (List.filter p l).
Proof.
  induction 1 as [|x rest Hfresh _ IH]; cbn [List.filter]; [constructor|].
  destruct (p x); [|exact IH].
  constructor; [|exact IH].
  rewrite list_elem_of_In, filter_In. intros [Hin _].
  apply Hfresh, list_elem_of_In, Hin.
Qed.

(** X19. The tag handlers keep the tag list tidy: if it has no repetition, no
    empty tag and no tag with white space around it, the same holds after
    [addTag] and after [removeTag]. *)
Theorem tags_stay_tidy (f : TagForm) (tagToRemove : string) :
  tidyTags (tags f) ->
  tidyTags (tags (addTag f)) /\ tidyTags (tags (removeTag tagToRemove f)).
Proof.
  intros [Hnd Hall]. split.
  - unfold addTag. cbv zeta.
    destruct (String.eqb_spec (trim (tagInput f)) EmptyString) as [|Hne];
      [split; assumption|].
    destruct (includes (tags f) (trim (tagInput f))) eqn:Hinc;
      [split; assumption|].
    cbn [negb andb tags]. split.
    + apply NoDup_app. split; [exact Hnd|]. split; [|apply NoDup_singleton].
      intros t Ht Ht'. apply list_elem_of_singleton in Ht'. subst t.
      apply list_elem_of_In, includes_In in Ht. congruence.
    + apply Forall_app. split; [exact Hall|].
      apply Forall_singleton. split; [exact Hne|apply trim_idem].
  - unfold removeTag. cbn [tags]. split.
    + apply NoDup_List_filter, Hnd.
    + rewrite Forall_forall in Hall. apply Forall_forall.
      intros t Ht. apply list_elem_of_In, filter_In in Ht as [Ht _].
      apply Hall, list_elem_of_In, Ht.
Qed.

Lemma tags_stay_tidy_witness :
  tidyTags ["calm"; "work"]%string /\
  tidyTags (tags (addTag (mkTagForm ["calm"; "work"]%string "  gym "))).
Proof.
  assert (H : tidyTags ["calm"; "work"]%string).
  { split.
    - repeat (apply NoDup_cons; split;
              [rewrite list_elem_of_In; cbn; intuition discriminate|]).
      apply NoDup_nil_2.
    - repeat (apply Forall_cons; split; [split; [discriminate|reflexivity]|]).
      apply Forall_nil_2. }
  split; [exact H|].
  exact (proj1 (tags_stay_tidy (mkTagForm ["calm"; "work"]%string "  gym ")
                  EmptyString H)).
Defined.

Lemma List_filter_id {A} (p : A -> bool) (l : list A) :
  (forall x, In x l -> p x = true) -> List.filter p l = l.
Proof.
  induction l as [|x rest IH]; intros Hall; [reflexivity|].
  cbn [List.filter]. rewrite (Hall x (or_introl eq_refl)).
  f_equal. apply IH. intros y Hy. apply Hall. right. exact Hy.
Qed.

(** X20. Adding is idempotent (a second [addTag] right after the first changes
    nothing, since the input was cleared) and [removeTag] leaves no
    occurrence of the tag.  For an input of ASCII characters: a blank or
    repeated input changes nothing at all, and a new tag is appended with the
    input cleared, after which removing it gives back the tags there were. *)
Theorem adding_and_removing_tags (f : TagForm) (tagToRemove : string) :
  let t := trim (tagInput f) in
  addTag (addTag f) = addTag f /\
  ~ In tagToRemove (tags (removeTag tagToRemove f)) /\
  (asciiOnly (tagInput f) ->
   (t = EmptyString \/ In t (tags f) -> addTag f = f) /\
   (t <> EmptyString -> ~ In t (tags f) ->
    addTag f = mkTagForm (tags f ++ [t]) EmptyString /\
    tags (removeTag t (addTag f)) = tags f)).
Proof.
  cbv zeta.
  assert (Hfire : trim (tagInput f) <> EmptyString -> ~ In (trim (tagInput f)) (tags f) ->
                  addTag f = mkTagForm (tags f ++ [trim (tagInput f)]) EmptyString).
  { intros Hne Hnotin. unfold addTag. cbv zeta.
    destruct (String.eqb_spec (trim (tagInput f)) EmptyString); [contradiction|].
    destruct (includes (tags f) (trim (tagInput f))) eqn:Hinc; [|reflexivity].
    apply includes_In in Hinc. contradiction. }
  assert (Hskip : trim (tagInput f) = EmptyString \/ In (trim (tagInput f)) (tags f) ->
                  addTag f = f).
  { intros Hcase. unfold addTag. cbv zeta.
    destruct (String.eqb_spec (trim (tagInput f)) EmptyString); [reflexivity|].
    destruct Hcase as [|Hin]; [contradiction|].
    apply includes_In in Hin. rewrite Hin. reflexivity. }
  split; [|split].
  - destruct (String.eqb_spec (trim (tagInput f)) EmptyString) as [Hblank|Hne].
    { rewrite (Hskip (or_introl Hblank)). apply Hskip. left. exact Hblank. }
    destruct (includes (tags f) (trim (tagInput f))) eqn:Hinc.
    { apply includes_In in Hinc.
      rewrite (Hskip (or_intror Hinc)). apply Hskip. right. exact Hinc. }
    assert (Hnotin : ~ In (trim (tagInput f)) (tags f))
      by (rewrite <- includes_In; congruence).
    rewrite (Hfire Hne Hnotin). reflexivity.
  - unfold removeTag. cbn [tags]. rewrite filter_In. intros [_ Hk].
    rewrite String.eqb_refl in Hk. discriminate Hk.
  - intros _. split; [exact Hskip|].
    intros Hne Hnotin. split; [exact (Hfire Hne Hnotin)|].
    rewrite (Hfire Hne Hnotin). unfold removeTag. cbn [tags].
    rewrite List.filter_app. cbn [List.filter]. rewrite String.eqb_refl. cbn [negb].
    rewrite app_nil_r. apply List_filter_id.
    intros x Hx. destruct (String.eqb_spec x (trim (tagInput f))) as [->|]; [contradiction|].
    reflexivity.
Qed.

Lemma adding_and_removing_tags_witness :
  let f := mkTagForm ["calm"; "work"]%string "  gym " in
  asciiOnly (tagInput f) /\
  trim (tagInput f) <> EmptyString /\
  ~ In (trim (tagInput f)) (tags f) /\
  addTag f = mkTagForm ["calm"; "work"; "gym"]%string EmptyString /\
  tags (removeTag "gym" (addTag f)) = ["calm"; "work"]%string.
Proof.
  cbv zeta.
  assert (H0 : asciiOnly (tagInput (mkTagForm ["calm"; "work"]%string "  gym "))).
  { unfold asciiOnly. cbn [tagInput list_ascii_of_string].
    repeat (apply Forall_cons; split; [vm_compute; lia|]). apply Forall_nil_2. }
  assert (H1 : trim (tagInput (mkTagForm ["calm"; "work"]%string "  gym ")) <> EmptyString)
    by (vm_compute; discriminate).
  assert (H2 : ~ In (trim (tagInput (mkTagForm ["calm"; "work"]%string "  gym ")))
                    (tags (mkTagForm ["calm"; "work"]%string "  gym ")))
    by (vm_compute; intuition discriminate).
  split; [exact H0|]. split; [exact H1|]. split; [exact H2|].
  exact (proj2 (proj2 (proj2 (adding_and_removing_tags
                                (mkTagForm ["calm"; "work"]%string "  gym ")
                                EmptyString)) H0) H1 H2).
Defined.

(** ** The Spotify link of a mood entry *)

Lemma takeAlnum_allAlnum (s : string) : allAlnum (takeAlnum s).
Proof.
  unfold allAlnum. induction s as [|c rest IH]; cbn [takeAlnum]; [apply Forall_nil_2|].
  destruct (isAlnum c) eqn:Hc; [|apply Forall_nil_2].
  cbn [list_ascii_of_string]. apply Forall_cons. auto.
Qed.

Lemma takeAlnum_split (s : string) :
  exists post, s = (takeAlnum s ++ post)%string /\ endsTheId post.
Proof.
  induction s as [|c rest (post & Heq & Hpost)]; cbn [takeAlnum].
  - exists EmptyString. split; [reflexivity|exact I].
  - destruct (isAlnum c) eqn:Hc.
    + exists post. split; [|exact Hpost].
      change (String c (takeAlnum rest) ++ post)%string
        with (String c (takeAlnum rest ++ post)%string).
      f_equal. exact Heq.
    + exists (String c rest). split; [reflexivity|exact Hc].
Qed.

Lemma takeAlnum_append (id post : string) :
  allAlnum id -> endsTheId post -> takeAlnum (id ++ post) = id.
Proof.
  unfold allAlnum. intros Hid Hpost. induction id as [|c rest IH].
  - change (EmptyString ++ post)%string with post.
    destruct post as [|d post']; [reflexivity|].
    cbn [takeAlnum]. cbn in Hpost. rewrite Hpost. reflexivity.
  - cbn [list_ascii_of_string] in Hid. apply Forall_cons in Hid as [Hc Hrest].
    change (String c rest ++ post)%string with (String c (rest ++ post)%string).
    cbn [takeAlnum]. rewrite Hc. f_equal. apply IH, Hrest.
Qed.

Lemma prefix_skipChars (p s : string) :
  String.prefix p s = true -> s = (p ++ skipChars (String.length p) s)%string.
Proof.
  revert s. induction p as [|a p IH]; intros s Hprefix; [reflexivity|].
  destruct s as [|b s]; [discriminate Hprefix|].
  cbn [String.prefix] in Hprefix.
  destruct (ascii_dec a b) as [->|]; [|discriminate Hprefix].
  cbn [String.length skipChars].
  change (String b p ++ skipChars (String.length p) s)%string
    with (String b (p ++ skipChars (String.length p) s)%string).
  f_equal. apply IH, Hprefix.
Qed.

Lemma prefix_append (p s : string) : String.prefix p (p ++ s) = true.
Proof.
  induction p as [|a p IH]; [destruct s; reflexivity|].
  change (String a p ++ s)%string with (String a (p ++ s)%string).
  cbn [String.prefix]. destruct (ascii_dec a a); [exact IH|contradiction].
Qed.

Lemma skipChars_append (p s : string) : skipChars (String.length p) (p ++ s) = s.
Proof.
  induction p as [|a p IH]; [reflexivity|].
  change (String a p ++ s)%string with (String a (p ++ s)%string).
  cbn [String.length skipChars]. exact IH.
Qed.

Lemma matchTrack_at_track (rest : string) (id : string) :
  id <> EmptyString ->
  takeAlnum rest = id ->
  matchTrack ("track/" ++ rest) = Some id.
Proof.
  intros Hne Hid.
  change ("track/" ++ rest)%string with (String "t" ("rack/" ++ rest)%string).
  cbn [matchTrack].
  change (String "t" ("rack/" ++ rest)%string) with ("track/" ++ rest)%string.
  rewrite prefix_append.
  change 6%nat with (String.length "track/"). rewrite skipChars_append, Hid.
  destruct id; [contradiction|reflexivity].
Qed.

(** X21. A track id that [parseSpotifyLink] returns is a non-empty run of
    letters and digits that follows [track/] somewhere in the link and is
    followed by the end of the link or by a character that is neither. *)
Theorem parsed_track_id_comes_from_the_link (link id : string) :
  parseSpotifyLink link = Some id ->
  id <> EmptyString /\
  allAlnum id /\
  exists before after,
    link = (before ++ "track/" ++ id ++ after)%string /\ endsTheId after.
Proof.
  unfold parseSpotifyLink. induction link as [|c rest IH]; [discriminate|].
  intros Hmatch. cbn [matchTrack] in Hmatch.
  assert (Hlater : matchTrack rest = Some id ->
                   id <> EmptyString /\ allAlnum id /\
                   exists before after,
                     String c rest = (before ++ "track/" ++ id ++ after)%string /\
                     endsTheId after).
  { intros Hrest. destruct (IH Hrest) as (Hne & Hal & before & after & Heq & Hend).
    split; [exact Hne|]. split; [exact Hal|].
    exists (String c before), after. split; [|exact Hend].
    change (String c before ++ "track/" ++ id ++ after)%string
      with (String c (before ++ "track/" ++ id ++ after)%string).
    f_equal. exact Heq. }
  destruct (String.prefix "track/" (String c rest)) eqn:Hprefix; [|auto].
  destruct (takeAlnum (skipChars 6 (String c rest))) as [|d run] eqn:Hrun; [auto|].
  injection Hmatch as <-.
  split; [discriminate|]. split.
  - rewrite <- Hrun. apply takeAlnum_allAlnum.
  - destruct (takeAlnum_split (skipChars 6 (String c rest))) as (after & Heq & Hend).
    exists EmptyString, after. split; [|exact Hend].
    rewrite <- Hrun.
    change (EmptyString ++ "track/"
            ++ takeAlnum (skipChars 6 (String c rest)) ++ after)%string
      with ("track/" ++ (takeAlnum (skipChars 6 (String c rest)) ++ after))%string.
    rewrite <- Heq. apply (prefix_skipChars "track/"). exact Hprefix.
Qed.

Lemma parsed_track_id_comes_from_the_link_witness :
  parseSpotifyLink "see track/-track/ab9_x" = Some "ab9"%string /\
  "ab9"%string <> EmptyString /\ allAlnum "ab9".
Proof.
  assert (H : parseSpotifyLink "see track/-track/ab9_x" = Some "ab9"%string)
    by reflexivity.
  split; [exact H|].
  destruct (parsed_track_id_comes_from_the_link _ _ H) as (Hne & Hal & _).
  split; assumption.
Defined.

(** X22. From a share link, the address of a track followed by its id and then
    by nothing or by something that does not continue the id (such as a
    query string), [parseSpotifyLink] returns exactly the id. *)
Theorem share_link_gives_its_track_id (id rest : string) :
  id <> EmptyString -> allAlnum id -> endsTheId rest ->
  parseSpotifyLink (shareLink id rest) = Some id.
Proof.
  intros Hne Hid Hrest. unfold parseSpotifyLink, shareLink.
  assert (Hhere : matchTrack ("track/" ++ (id ++ rest)) = Some id).
  { apply matchTrack_at_track; [exact Hne|]. apply takeAlnum_append; assumption. }
  change ("https://open.spotify.com/track/" ++ id ++ rest)%string
    with ("https://open.spotify.com/" ++ ("track/" ++ (id ++ rest)))%string.
  set (tail := ("track/" ++ (id ++ rest))%string) in *.
  repeat match goal with
    | |- matchTrack (String ?c ?s ++ tail)%string = _ =>
        change (String c s ++ tail)%string with (String c (s ++ tail)%string);
        change (matchTrack (String c (s ++ tail)%string)) with (matchTrack (s ++ tail)%string)
    end.
  exact Hhere.
Qed.

Lemma share_link_gives_its_track_id_witness :
  "4uLU6hMCjMI75M1A2tKUQC"%string <> EmptyString /\
  allAlnum "4uLU6hMCjMI75M1A2tKUQC" /\
  endsTheId "?si=abc" /\
  parseSpotifyLink "https://open.spotify.com/track/4uLU6hMCjMI75M1A2tKUQC?si=abc"
  = Some "4uLU6hMCjMI75M1A2tKUQC"%string.
Proof.
  assert (H1 : "4uLU6hMCjMI75M1A2tKUQC"%string <> EmptyString) by discriminate.
  assert (H2 : allAlnum "4uLU6hMCjMI75M1A2tKUQC").
  { unfold allAlnum. cbn [list_ascii_of_string].
    repeat (apply Forall_cons; split; [reflexivity|]). apply Forall_nil_2. }
  assert (H3 : endsTheId "?si=abc") by reflexivity.
  split; [exact H1|]. split; [exact H2|]. split; [exact H3|].
  exact (share_link_gives_its_track_id _ _ H1 H2 H3).
Defined.
